(** * JoltJS.h: collision layers, layer filters and the simulation driver

    A shallow embedding of [src/JoltJS.h].  The header is glue code on top
    of the Jolt engine: it defines the object and broadphase layers, the
    mapping between them, the two layer filters, the two diagnostic
    callbacks and the [JoltInterface] class that owns the engine objects.

    The engine itself is not part of the header.  What the header needs
    from it (the assertion macro, the engine classes whose constructors the
    driver calls, the world update) is modelled below and marked as such. *)

From Stdlib Require Import NArith ZArith QArith List String Bool Lia DecimalString.
Import ListNotations.

Local Close Scope Q_scope.
Local Open Scope N_scope.

(** ** Build configuration *)

(** What the translation unit is compiled against: the assertion switch,
    the spelling of [__FILE__], and the two constants [cMaxPhysicsJobs] and
    [cMaxPhysicsBarriers], which the header uses but the engine declares. *)
Record Build : Type := mkBuild {
  JPH_ENABLE_ASSERTS : bool;
  FILE_name : string;
  cMaxPhysicsJobs : Z;
  cMaxPhysicsBarriers : Z
}.

(** ** Machine integers *)

(** [ObjectLayer] is the engine's unsigned 16-bit layer tag, [uint] its
    unsigned 32-bit integer.  Both are carried as [N]. *)
Definition ObjectLayer : Type := N.
Definition uint : Type := N.

(** Integral promotion of an [ObjectLayer] to [int]: value preserving. *)
Definition promote (l : ObjectLayer) : Z := Z.of_N l.

(** [(int)u] for an unsigned 32-bit [u]: two's complement reading. *)
Definition to_int (u : uint) : Z :=
  if u <? 2 ^ 31 then Z.of_N u else (Z.of_N u - 2 ^ 32)%Z.

Definition INT_MIN : Z := (- 2 ^ 31)%Z.
Definition INT_MAX : Z := (2 ^ 31 - 1)%Z.

(** ** The process: global hooks, the factory singleton, the terminal *)

(** Terminal output, one entry per line written with [<< endl]. *)
Definition tty : Type := list string.

(** The two diagnostic hooks are function pointers.  A trace hook receives
    the message (formatting of the variadic arguments is abstracted: the
    hook is handed the formatted text); an assertion hook receives the
    expression, the optional message, the file and the line, and answers
    whether the caller should break. *)
Definition TraceFunction : Type := string -> tty -> tty.
Definition AssertFailedFunction : Type :=
  string -> option string -> string -> uint -> tty -> tty * bool.

Definition FactoryPtr : Type := nat.

(** The objects whose construction and destruction the driver causes. *)
Inductive Component : Type :=
| TempAllocatorC
| JobSystemC
| BPLayerInterfaceC
| PhysicsSystemC
| FactoryC.

(** Lifetime events, recorded in the order in which they happen (a ghost
    log: it has no counterpart in memory, it only remembers the order). *)
Inductive LifeEvent : Type :=
| Constructed (c : Component)
| Destroyed (c : Component).

Record Process : Type := mkProcess {
  Trace : TraceFunction;
  AssertFailed : AssertFailedFunction;
  Factory_sInstance : option FactoryPtr;      (* [None] is [nullptr] *)
  live_factories : list FactoryPtr;           (* allocated, not deleted *)
  registered : list FactoryPtr;               (* factories holding the types *)
  cout : tty;
  lifetimes : list LifeEvent
}.

(** ** Outcomes and the execution monad *)

Inductive Outcome (A : Type) : Type :=
| Returned (a : A)   (* the call returned [a] *)
| Trapped            (* execution stopped at a break or a fatal fault *)
| Undefined.         (* the call left defined behaviour *)

Arguments Returned {A} a.
Arguments Trapped {A}.
Arguments Undefined {A}.

Definition Proc (A : Type) : Type := Process -> Process * Outcome A.

Definition ret {A : Type} (a : A) : Proc A := fun p => (p, Returned a).

Definition bind {A B : Type} (c : Proc A) (k : A -> Proc B) : Proc B :=
  fun p =>
    match c p with
    | (p', Returned a) => k a p'
    | (p', Trapped) => (p', Trapped)
    | (p', Undefined) => (p', Undefined)
    end.

Definition trap {A : Type} : Proc A := fun p => (p, Trapped).
Definition undefined {A : Type} : Proc A := fun p => (p, Undefined).

Declare Scope proc_scope.
Delimit Scope proc_scope with proc.
Notation "x <- c ;; k" := (bind c (fun x => k))
  (at level 61, c at next level, right associativity) : proc_scope.
Notation "c ;; k" := (bind c (fun _ => k))
  (at level 61, right associativity) : proc_scope.
Local Open Scope proc_scope.

(** Field updates of the process. *)
Definition with_Trace (f : TraceFunction) (p : Process) : Process :=
  mkProcess f (AssertFailed p) (Factory_sInstance p) (live_factories p)
            (registered p) (cout p) (lifetimes p).

Definition with_AssertFailed (f : AssertFailedFunction) (p : Process) : Process :=
  mkProcess (Trace p) f (Factory_sInstance p) (live_factories p)
            (registered p) (cout p) (lifetimes p).

Definition with_sInstance (f : option FactoryPtr) (p : Process) : Process :=
  mkProcess (Trace p) (AssertFailed p) f (live_factories p)
            (registered p) (cout p) (lifetimes p).

Definition with_cout (o : tty) (p : Process) : Process :=
  mkProcess (Trace p) (AssertFailed p) (Factory_sInstance p) (live_factories p)
            (registered p) o (lifetimes p).

Definition with_heap (live reg : list FactoryPtr) (p : Process) : Process :=
  mkProcess (Trace p) (AssertFailed p) (Factory_sInstance p) live reg
            (cout p) (lifetimes p).

Definition log_event (e : LifeEvent) (p : Process) : Process :=
  mkProcess (Trace p) (AssertFailed p) (Factory_sInstance p) (live_factories p)
            (registered p) (cout p) (lifetimes p ++ [e]).

Definition modify (f : Process -> Process) : Proc unit :=
  fun p => (f p, Returned tt).

(** ** Diagnostic callbacks *)

(** [TraceImpl]: the message is formatted into a buffer of 1024 bytes, so at
    most 1023 characters survive, and the buffer is printed as one line. *)
Definition TraceImpl : TraceFunction :=
  fun formatted out => out ++ [String.substring 0 1023 formatted].

Definition decimal (n : N) : string := NilEmpty.string_of_uint (N.to_uint n).

(** [AssertFailedImpl]: prints [file:line: (expression) message] and asks
    for a break. *)
Definition AssertFailedImpl : AssertFailedFunction :=
  fun inExpression inMessage inFile inLine out =>
    (out ++ [(inFile ++ ":" ++ decimal inLine ++ ": (" ++ inExpression ++ ") "
              ++ match inMessage with Some m => m | None => EmptyString end)%string],
     true).

(** Modelled from the spec: the engine's [JPH_ASSERT] macro, which the
    header uses but does not define.  The assertion sink is "only compiled
    in when assertion-checking is enabled"; it receives "(expression text,
    optional message, source-file name, source-line number)" and "returns a
    boolean indicating whether the caller should trigger a debugger-style
    break".  A break stops the call. *)
Definition JPH_ASSERT (b : Build) (cond : bool) (expression : string)
  (line : uint) : Proc unit :=
  fun p =>
    if JPH_ENABLE_ASSERTS b then
      if cond then (p, Returned tt)
      else
        let '(out, brk) :=
          AssertFailed p expression None (FILE_name b) line (cout p) in
        (with_cout out p, if brk then Trapped else Returned tt)
    else (p, Returned tt).

(** [JPH_IF_ENABLE_ASSERTS(stmt)]: the statement exists in assertion builds
    only. *)
Definition JPH_IF_ENABLE_ASSERTS (b : Build) (stmt : Proc unit) : Proc unit :=
  if JPH_ENABLE_ASSERTS b then stmt else ret tt.

(** ** Layers *)

Module Layers.

(** [enum class Layers]. *)
Inductive t : Type := NON_MOVING | MOVING | NUM_LAYERS.

(** [(int)Layers::X]. *)
Definition to_int (l : t) : Z :=
  match l with
  | NON_MOVING => 0
  | MOVING => 1
  | NUM_LAYERS => 2
  end%Z.

End Layers.

(** The engine's [BroadPhaseLayer]: a class around one unsigned 8-bit
    value, compared by that value. *)
Record BroadPhaseLayer : Type := mkBroadPhaseLayer { mValue : N }.

Definition BroadPhaseLayer_eqb (a b : BroadPhaseLayer) : bool :=
  mValue a =? mValue b.

Module BroadPhaseLayers.

Definition NON_MOVING : BroadPhaseLayer := mkBroadPhaseLayer 0.
Definition MOVING : BroadPhaseLayer := mkBroadPhaseLayer 1.
Definition NUM_LAYERS : uint := 2.

End BroadPhaseLayers.

(** ** The object-layer filter *)

Definition MyObjectCanCollide (b : Build) (inObject1 inObject2 : ObjectLayer)
  : Proc bool :=
  if (promote inObject1 =? Layers.to_int Layers.NON_MOVING)%Z then
    (* Non moving only collides with moving *)
    ret (promote inObject2 =? Layers.to_int Layers.MOVING)%Z
  else if (promote inObject1 =? Layers.to_int Layers.MOVING)%Z then
    (* Moving collides with everything *)
    ret true
  else
    JPH_ASSERT b false "false" 64 ;;
    ret false.

(** ** The broadphase layer interface *)

(** [mObjectToBroadPhase]: an array of [NUM_LAYERS] broadphase layers.  A
    slot that was never written holds no determinate value ([None]). *)
Record BPLayerInterfaceImpl : Type := mkBPLayerInterfaceImpl {
  mObjectToBroadPhase : list (option BroadPhaseLayer)
}.

(** [a[i] = v] on an array; a write outside the array is not defined. *)
Fixpoint array_set {A : Type} (a : list A) (i : nat) (v : A) : option (list A) :=
  match a, i with
  | [], _ => None
  | _ :: tl, O => Some (v :: tl)
  | hd :: tl, S i' =>
      match array_set tl i' v with
      | Some tl' => Some (hd :: tl')
      | None => None
      end
  end.

Definition array_write {A : Type} (a : list A) (i : Z) (v : A) : Proc (list A) :=
  if (i <? 0)%Z then undefined
  else match array_set a (Z.to_nat i) v with
       | Some a' => ret a'
       | None => undefined
       end.

(** The constructor fills the mapping table. *)
Definition BPLayerInterfaceImpl_ctor : Proc BPLayerInterfaceImpl :=
  let a0 := repeat (@None BroadPhaseLayer)
                   (Z.to_nat (Layers.to_int Layers.NUM_LAYERS)) in
  a1 <- array_write a0 (Layers.to_int Layers.NON_MOVING)
                    (Some BroadPhaseLayers.NON_MOVING) ;;
  a2 <- array_write a1 (Layers.to_int Layers.MOVING)
                    (Some BroadPhaseLayers.MOVING) ;;
  modify (log_event (Constructed BPLayerInterfaceC)) ;;
  ret (mkBPLayerInterfaceImpl a2).

Definition GetNumBroadPhaseLayers (this : BPLayerInterfaceImpl) : uint :=
  BroadPhaseLayers.NUM_LAYERS.

Definition GetBroadPhaseLayer (b : Build) (this : BPLayerInterfaceImpl)
  (inLayer : ObjectLayer) : Proc BroadPhaseLayer :=
  JPH_ASSERT b (promote inLayer <? Layers.to_int Layers.NUM_LAYERS)%Z
             "inLayer < (int)Layers::NUM_LAYERS" 96 ;;
  match nth_error (mObjectToBroadPhase this) (N.to_nat inLayer) with
  | Some (Some l) => ret l
  | _ => undefined
  end.

(** Only present in profiling builds. *)
Definition GetBroadPhaseLayerName (b : Build) (this : BPLayerInterfaceImpl)
  (inLayer : BroadPhaseLayer) : Proc string :=
  if mValue inLayer =? mValue BroadPhaseLayers.NON_MOVING then ret "NON_MOVING"%string
  else if mValue inLayer =? mValue BroadPhaseLayers.MOVING then ret "MOVING"%string
  else JPH_ASSERT b false "false" 107 ;; ret "INVALID"%string.

(** ** The broadphase filter *)

Definition MyBroadPhaseCanCollide (b : Build) (inLayer1 : ObjectLayer)
  (inLayer2 : BroadPhaseLayer) : Proc bool :=
  if (promote inLayer1 =? Layers.to_int Layers.NON_MOVING)%Z then
    ret (BroadPhaseLayer_eqb inLayer2 BroadPhaseLayers.MOVING)
  else if (promote inLayer1 =? Layers.to_int Layers.MOVING)%Z then
    ret true
  else
    JPH_ASSERT b false "false" 126 ;;
    ret false.

(** ** The factory singleton *)

(** [new Factory()]: an address that no live factory occupies. *)
Definition fresh_ptr (live : list FactoryPtr) : FactoryPtr :=
  S (fold_right Nat.max O live).

Definition new_Factory : Proc FactoryPtr :=
  fun p =>
    let f := fresh_ptr (live_factories p) in
    (log_event (Constructed FactoryC)
       (with_heap (f :: live_factories p) (registered p) p),
     Returned f).

Definition is_live (f : FactoryPtr) (p : Process) : bool :=
  existsb (Nat.eqb f) (live_factories p).

(** [delete ptr]: nothing on [nullptr]; deleting what is not live is not
    defined. *)
Definition delete_Factory (ptr : option FactoryPtr) : Proc unit :=
  match ptr with
  | None => ret tt
  | Some f =>
      fun p =>
        if is_live f p then
          (log_event (Destroyed FactoryC)
             (with_heap (filter (fun g => negb (Nat.eqb f g)) (live_factories p))
                        (filter (fun g => negb (Nat.eqb f g)) (registered p)) p),
           Returned tt)
        else (p, Undefined)
  end.

Definition get_sInstance : Proc (option FactoryPtr) :=
  fun p => (p, Returned (Factory_sInstance p)).

(** Modelled from the spec: the engine's [RegisterTypes], of which the
    header has only the call.  It "registers all simulated type
    descriptors" with the process-wide singleton, so it needs one. *)
Definition RegisterTypes : Proc unit :=
  fun p =>
    match Factory_sInstance p with
    | Some f => (with_heap (live_factories p) (f :: registered p) p, Returned tt)
    | None => (p, Undefined)
    end.

(** ** Engine objects owned by the driver *)

Definition float : Type := Q.

(** Modelled from the spec: the engine's [TempAllocatorImpl], the scratch
    arena: "a fixed-size block of temporary memory (bytes)" with a count of
    used bytes. *)
Record TempAllocatorImpl : Type := mkTempAllocatorImpl {
  mSize : uint;
  mTop : uint
}.

Definition TempAllocatorImpl_ctor (inSize : uint) : Proc TempAllocatorImpl :=
  modify (log_event (Constructed TempAllocatorC)) ;;
  ret (mkTempAllocatorImpl inSize 0).

Definition TempAllocatorImpl_dtor (a : TempAllocatorImpl) : Proc unit :=
  modify (log_event (Destroyed TempAllocatorC)).

(** Modelled from the spec: the engine's [JobSystemThreadPool], "a bounded
    set of worker execution contexts", built from the maximum number of
    jobs, the maximum number of barriers and the number of threads. *)
Record JobSystemThreadPool : Type := mkJobSystemThreadPool {
  mMaxJobs : Z;
  mMaxBarriers : Z;
  mNumThreads : Z
}.

Definition JobSystemThreadPool_ctor (inMaxJobs inMaxBarriers inNumThreads : Z)
  : Proc JobSystemThreadPool :=
  modify (log_event (Constructed JobSystemC)) ;;
  ret (mkJobSystemThreadPool inMaxJobs inMaxBarriers inNumThreads).

Definition JobSystemThreadPool_dtor (j : JobSystemThreadPool) : Proc unit :=
  modify (log_event (Destroyed JobSystemC)).

Definition BPLayerInterfaceImpl_dtor (m : BPLayerInterfaceImpl) : Proc unit :=
  modify (log_event (Destroyed BPLayerInterfaceC)).

Definition ObjectVsBroadPhaseLayerFilter : Type :=
  ObjectLayer -> BroadPhaseLayer -> Proc bool.
Definition ObjectLayerPairFilter : Type :=
  ObjectLayer -> ObjectLayer -> Proc bool.

(** Modelled from the spec: the engine's [PhysicsSystem], the world.  It is
    "created once at initialization with fixed capacity limits (max bodies,
    max body pairs, max contact constraints)" and is handed the mapper and
    the two filters.  Of its content only what a step needs from the scratch
    arena is kept: the bytes of one collision pass (contact lists) and of
    one integration substep (islands). *)
Record PhysicsSystem : Type := mkPhysicsSystem {
  mMaxBodies : uint;
  mNumBodyMutexes : uint;
  mMaxBodyPairs : uint;
  mMaxContactConstraints : uint;
  mBroadPhaseLayerInterface : option BPLayerInterfaceImpl;
  mObjectVsBroadPhaseLayerFilter : option ObjectVsBroadPhaseLayerFilter;
  mObjectLayerPairFilter : option ObjectLayerPairFilter;
  mContactBytes : uint;
  mIslandBytes : uint;
  mSimulatedTime : float
}.

Definition PhysicsSystem_ctor : Proc PhysicsSystem :=
  modify (log_event (Constructed PhysicsSystemC)) ;;
  ret (mkPhysicsSystem 0 0 0 0 None None None 0 0 0%Q).

Definition PhysicsSystem_dtor (w : PhysicsSystem) : Proc unit :=
  modify (log_event (Destroyed PhysicsSystemC)).

Definition PhysicsSystem_Init (w : PhysicsSystem)
  (inMaxBodies inNumBodyMutexes inMaxBodyPairs inMaxContactConstraints : uint)
  (inLayerInterface : BPLayerInterfaceImpl)
  (inObjectVsBroadPhaseLayerFilter : ObjectVsBroadPhaseLayerFilter)
  (inObjectLayerPairFilter : ObjectLayerPairFilter) : Proc PhysicsSystem :=
  ret (mkPhysicsSystem inMaxBodies inNumBodyMutexes inMaxBodyPairs
         inMaxContactConstraints (Some inLayerInterface)
         (Some inObjectVsBroadPhaseLayerFilter) (Some inObjectLayerPairFilter)
         (mContactBytes w) (mIslandBytes w) (mSimulatedTime w)).

(** ** The world update *)

(** Modelled from the spec: allocation in the scratch arena.  The arena is
    of fixed size; a request that does not fit is a capacity fault, "fatal
    at the point of overflow" and "surfaced via the diagnostic sink". *)
Definition TempAllocator_Allocate (n : uint) (a : TempAllocatorImpl)
  : Proc TempAllocatorImpl :=
  if mTop a + n <=? mSize a then ret (mkTempAllocatorImpl (mSize a) (mTop a + n))
  else
    modify (fun p => with_cout (Trace p "Out of temp memory"%string (cout p)) p) ;;
    trap.

(** Modelled from the spec: giving a block back to the arena.  Handing back
    more than is in use is not defined. *)
Definition TempAllocator_Free (n : uint) (a : TempAllocatorImpl)
  : Proc TempAllocatorImpl :=
  if n <=? mTop a then ret (mkTempAllocatorImpl (mSize a) (mTop a - n))
  else undefined.

(** Modelled from the spec: the integration substeps of one collision step,
    "finer integration substeps within each collision step", each with its
    own transient allocation. *)
Fixpoint integration_substeps (w : PhysicsSystem) (n : nat)
  (a : TempAllocatorImpl) : Proc TempAllocatorImpl :=
  match n with
  | O => ret a
  | S n' =>
      a1 <- TempAllocator_Allocate (mIslandBytes w) a ;;
      a2 <- TempAllocator_Free (mIslandBytes w) a1 ;;
      integration_substeps w n' a2
  end.

(** Modelled from the spec: the collision steps, "discrete
    collision-detection passes (each followed by solving)", executed
    "strictly in sequence"; the contact lists of a pass live in the arena
    until the pass is solved. *)
Fixpoint collision_steps (w : PhysicsSystem) (n subs : nat)
  (a : TempAllocatorImpl) : Proc TempAllocatorImpl :=
  match n with
  | O => ret a
  | S n' =>
      a1 <- TempAllocator_Allocate (mContactBytes w) a ;;
      a2 <- integration_substeps w subs a1 ;;
      a3 <- TempAllocator_Free (mContactBytes w) a2 ;;
      collision_steps w n' subs a3
  end.

Definition advance (w : PhysicsSystem) (dt : float) : PhysicsSystem :=
  mkPhysicsSystem (mMaxBodies w) (mNumBodyMutexes w) (mMaxBodyPairs w)
    (mMaxContactConstraints w) (mBroadPhaseLayerInterface w)
    (mObjectVsBroadPhaseLayerFilter w) (mObjectLayerPairFilter w)
    (mContactBytes w) (mIslandBytes w) (mSimulatedTime w + dt)%Q.

(** Modelled from the spec: the engine's [PhysicsSystem::Update], of which
    the header has only the call.  It "advances the world by deltaTime",
    and "the scratch arena is reset to empty at step entry and must be fully
    drained again by step exit".  The arena and the job pool are passed by
    pointer: the arena comes back changed. *)
Definition PhysicsSystem_Update (w : PhysicsSystem) (inDeltaTime : float)
  (inCollisionSteps inIntegrationSubSteps : Z)
  (inTempAllocator : TempAllocatorImpl) (inJobSystem : JobSystemThreadPool)
  : Proc (PhysicsSystem * TempAllocatorImpl) :=
  let a0 := mkTempAllocatorImpl (mSize inTempAllocator) 0 in
  a <- collision_steps w (Z.to_nat inCollisionSteps)
                       (Z.to_nat inIntegrationSubSteps) a0 ;;
  ret (advance w inDeltaTime, a).

(** ** The driver *)

(** [class JoltInterface]: the members, in declaration order. *)
Record JoltInterface : Type := mkJoltInterface {
  mTempAllocator : TempAllocatorImpl;
  mJobSystem : JobSystemThreadPool;
  mBPLayerInterface : BPLayerInterfaceImpl;
  mPhysicsSystem : PhysicsSystem
}.

(** [a - b] on [int]; overflow is not defined. *)
Definition int_sub (a b : Z) : Proc Z :=
  let r := (a - b)%Z in
  if ((INT_MIN <=? r) && (r <=? INT_MAX))%Z then ret r else undefined.

(** The constructor.  The members are initialised first, in declaration
    order, from their default member initialisers; then the body runs.
    [hardware_concurrency] is what [thread::hardware_concurrency()]
    answers. *)
Definition JoltInterface_ctor (b : Build) (hardware_concurrency : uint)
  : Proc JoltInterface :=
  (* TempAllocatorImpl mTempAllocator { 10 * 1024 * 1024 }; *)
  ta <- TempAllocatorImpl_ctor (10 * 1024 * 1024) ;;
  (* JobSystemThreadPool mJobSystem { cMaxPhysicsJobs, cMaxPhysicsBarriers,
       (int)thread::hardware_concurrency() - 1 }; *)
  n <- int_sub (to_int hardware_concurrency) 1 ;;
  js <- JobSystemThreadPool_ctor (cMaxPhysicsJobs b) (cMaxPhysicsBarriers b) n ;;
  (* BPLayerInterfaceImpl mBPLayerInterface; *)
  bp <- BPLayerInterfaceImpl_ctor ;;
  (* PhysicsSystem mPhysicsSystem; *)
  w <- PhysicsSystem_ctor ;;
  (* Install callbacks *)
  modify (with_Trace TraceImpl) ;;
  JPH_IF_ENABLE_ASSERTS b (modify (with_AssertFailed AssertFailedImpl)) ;;
  (* Create a factory *)
  f <- new_Factory ;;
  modify (with_sInstance (Some f)) ;;
  (* Register all Jolt physics types *)
  RegisterTypes ;;
  (* Init the physics system *)
  let cMaxBodies := 1024 in
  let cNumBodyMutexes := 0 in
  let cMaxBodyPairs := 1024 in
  let cMaxContactConstraints := 1024 in
  w' <- PhysicsSystem_Init w cMaxBodies cNumBodyMutexes cMaxBodyPairs
          cMaxContactConstraints bp
          (MyBroadPhaseCanCollide b) (MyObjectCanCollide b) ;;
  ret (mkJoltInterface ta js bp w').

(** The destructor.  The body runs first; then the members are destroyed
    in reverse declaration order. *)
Definition JoltInterface_dtor (this : JoltInterface) : Proc unit :=
  (* Destroy the factory *)
  f <- get_sInstance ;;
  delete_Factory f ;;
  modify (with_sInstance None) ;;
  PhysicsSystem_dtor (mPhysicsSystem this) ;;
  BPLayerInterfaceImpl_dtor (mBPLayerInterface this) ;;
  JobSystemThreadPool_dtor (mJobSystem this) ;;
  TempAllocatorImpl_dtor (mTempAllocator this).

(** [Step]: the world and the arena are members, so the driver comes back
    changed. *)
Definition Step (this : JoltInterface) (inDeltaTime : float)
  (inCollisionSteps inIntegrationSubSteps : Z) : Proc JoltInterface :=
  r <- PhysicsSystem_Update (mPhysicsSystem this) inDeltaTime inCollisionSteps
         inIntegrationSubSteps (mTempAllocator this) (mJobSystem this) ;;
  ret (mkJoltInterface (snd r) (mJobSystem this) (mBPLayerInterface this) (fst r)).

Definition GetPhysicsSystem (this : JoltInterface) : PhysicsSystem :=
  mPhysicsSystem this.

(** ** A process to run on *)

(** The process before the driver exists: silent hooks (the assertion hook
    asks for a break), no factory, nothing printed. *)
Definition boot : Process :=
  mkProcess (fun _ out => out) (fun _ _ _ _ out => (out, true)) None [] [] [] [].

Definition debug_build : Build := mkBuild true "JoltJS.h" 2048 8.
Definition release_build : Build := mkBuild false "JoltJS.h" 2048 8.

(** ** Vocabulary of the statements *)

Definition valid_layer (l : ObjectLayer) : Prop := l < 2.

(** Position of the first occurrence of an event in a log. *)
Definition Component_eqb (c d : Component) : bool :=
  match c, d with
  | TempAllocatorC, TempAllocatorC
  | JobSystemC, JobSystemC
  | BPLayerInterfaceC, BPLayerInterfaceC
  | PhysicsSystemC, PhysicsSystemC
  | FactoryC, FactoryC => true
  | _, _ => false
  end.

Definition LifeEvent_eqb (e f : LifeEvent) : bool :=
  match e, f with
  | Constructed c, Constructed d => Component_eqb c d
  | Destroyed c, Destroyed d => Component_eqb c d
  | _, _ => false
  end.

Fixpoint position (e : LifeEvent) (log : list LifeEvent) : option nat :=
  match log with
  | [] => None
  | x :: tl =>
      if LifeEvent_eqb e x then Some O
      else match position e tl with
           | Some n => Some (S n)
           | None => None
           end
  end.

(** [happens_before e f log]: both events are in the log, [e] first. *)
Definition happens_before (e f : LifeEvent) (log : list LifeEvent) : bool :=
  match position e log, position f log with
  | Some i, Some j => Nat.ltb i j
  | _, _ => false
  end.

(** The destruction that undoes a construction. *)
Definition undo (e : LifeEvent) : LifeEvent :=
  match e with
  | Constructed c => Destroyed c
  | Destroyed c => Constructed c
  end.

(** The values [GetBroadPhaseLayer] returns over the object layers. *)
Definition returned_layer (b : Build) (m : BPLayerInterfaceImpl)
  (p : Process) (l : ObjectLayer) : option N :=
  match snd (GetBroadPhaseLayer b m l p) with
  | Returned bl => Some (mValue bl)
  | _ => None
  end.

Definition object_layer_domain : list ObjectLayer :=
  map N.of_nat (seq 0 (Z.to_nat (Layers.to_int Layers.NUM_LAYERS))).

Definition option_N_eq_dec (x y : option N) : {x = y} + {x <> y}.
Proof. decide equality. apply N.eq_dec. Defined.

Definition distinct_layers (b : Build) (m : BPLayerInterfaceImpl) (p : Process)
  : nat :=
  List.length
    (nodup option_N_eq_dec (map (returned_layer b m p) object_layer_domain)).

(** The mapper the constructor builds. *)
Definition the_mapper : BPLayerInterfaceImpl :=
  mkBPLayerInterfaceImpl
    [Some BroadPhaseLayers.NON_MOVING; Some BroadPhaseLayers.MOVING].

(** The object layer an enumerator of [Layers] stands for. *)
Definition object_layer (l : Layers.t) : ObjectLayer := Z.to_N (Layers.to_int l).

(** The line the assertion callback of the driver prints. *)
Definition assert_line (b : Build) (expression : string) (line : uint) : string :=
  (FILE_name b ++ ":" ++ decimal line ++ ": (" ++ expression ++ ") ")%string.

(** The process after a failed assertion was reported to the callback. *)
Definition reported (b : Build) (expression : string) (line : uint)
  (p : Process) : Process :=
  with_cout (cout p ++ [assert_line b expression line]) p.

(** The process in which a driver was constructed on [boot]. *)
Definition with_driver (b : Build) (hw : uint) : Process :=
  fst (JoltInterface_ctor b hw boot).

(** What a construction logs, in order. *)
Definition built : list LifeEvent :=
  [Constructed TempAllocatorC; Constructed JobSystemC;
   Constructed BPLayerInterfaceC; Constructed PhysicsSystemC;
   Constructed FactoryC].

(** The driver object a construction yields, [threads] being the number of
    worker threads it asked for. *)
Definition constructed_driver (b : Build) (threads : Z) : JoltInterface :=
  mkJoltInterface
    (mkTempAllocatorImpl (10 * 1024 * 1024) 0)
    (mkJobSystemThreadPool (cMaxPhysicsJobs b) (cMaxPhysicsBarriers b) threads)
    the_mapper
    (mkPhysicsSystem 1024 0 1024 1024 (Some the_mapper)
       (Some (MyBroadPhaseCanCollide b)) (Some (MyObjectCanCollide b))
       0 0 0%Q).

(** The process a construction leaves behind. *)
Definition constructed_process (b : Build) (p : Process) : Process :=
  let f := fresh_ptr (live_factories p) in
  mkProcess TraceImpl
    (if JPH_ENABLE_ASSERTS b then AssertFailedImpl else AssertFailed p)
    (Some f) (f :: live_factories p) (f :: registered p)
    (cout p) (lifetimes p ++ built).

(** The process a destruction leaves behind, [f] being the singleton. *)
Definition destroyed_process (f : FactoryPtr) (p : Process) : Process :=
  mkProcess (Trace p) (AssertFailed p) None
    (filter (fun g => negb (Nat.eqb f g)) (live_factories p))
    (filter (fun g => negb (Nat.eqb f g)) (registered p))
    (cout p) (lifetimes p ++ map undo (rev built)).

(** A driver is constructed, then destroyed. *)
Definition construct_then_destroy (b : Build) (hw : uint) : Proc unit :=
  this <- JoltInterface_ctor b hw ;;
  JoltInterface_dtor this.

(** The lifetime log of a driver constructed on [boot] and destroyed. *)
Definition lifetime_log (b : Build) (hw : uint) : list LifeEvent :=
  lifetimes (fst (construct_then_destroy b hw boot)).

(** The order in which a destruction destroys. *)
Definition unbuilt : list LifeEvent :=
  [Destroyed FactoryC; Destroyed PhysicsSystemC; Destroyed BPLayerInterfaceC;
   Destroyed JobSystemC; Destroyed TempAllocatorC].

(** The driver after collaborators have filled the world through
    [GetPhysicsSystem]: a step now needs [contact] bytes of the arena per
    collision pass and [island] bytes per integration substep. *)
Definition with_demand (contact island : uint) (this : JoltInterface)
  : JoltInterface :=
  let w := mPhysicsSystem this in
  mkJoltInterface (mTempAllocator this) (mJobSystem this)
    (mBPLayerInterface this)
    (mkPhysicsSystem (mMaxBodies w) (mNumBodyMutexes w) (mMaxBodyPairs w)
       (mMaxContactConstraints w) (mBroadPhaseLayerInterface w)
       (mObjectVsBroadPhaseLayerFilter w) (mObjectLayerPairFilter w)
       contact island (mSimulatedTime w)).

Definition loaded_driver : JoltInterface :=
  with_demand 4096 1024 (constructed_driver debug_build 3).

(** The value a call returned, [d] if it did not return. *)
Definition returned_or {A : Type} (d : A) (r : Process * Outcome A) : A :=
  match snd r with
  | Returned a => a
  | _ => d
  end.

(** The singleton pointer is null or points to an allocated factory. *)
Definition singleton_ok (p : Process) : Prop :=
  match Factory_sInstance p with
  | None => True
  | Some f => is_live f p = true
  end.

(** The process states the code of the header can bring about: from a
    process without a singleton, by constructing and destroying drivers,
    stepping, and asking the filters and the mapper, whatever the outcome of
    each call. *)
Inductive reachable : Process -> Prop :=
| reach_start (p : Process) :
    Factory_sInstance p = None -> reachable p
| reach_ctor (b : Build) (hw : uint) (p : Process) :
    reachable p -> reachable (fst (JoltInterface_ctor b hw p))
| reach_dtor (this : JoltInterface) (p : Process) :
    reachable p -> reachable (fst (JoltInterface_dtor this p))
| reach_Step (this : JoltInterface) (dt : float) (cs iss : Z) (p : Process) :
    reachable p -> reachable (fst (Step this dt cs iss p))
| reach_object_filter (b : Build) (o1 o2 : ObjectLayer) (p : Process) :
    reachable p -> reachable (fst (MyObjectCanCollide b o1 o2 p))
| reach_broadphase_filter (b : Build) (o : ObjectLayer) (bl : BroadPhaseLayer)
    (p : Process) :
    reachable p -> reachable (fst (MyBroadPhaseCanCollide b o bl p))
| reach_mapper (b : Build) (m : BPLayerInterfaceImpl) (o : ObjectLayer)
    (p : Process) :
    reachable p -> reachable (fst (GetBroadPhaseLayer b m o p)).

(** A call that leaves the singleton and the allocated factories alone. *)
Definition keeps_factories {A : Type} (c : Proc A) : Prop :=
  forall p : Process,
    Factory_sInstance (fst (c p)) = Factory_sInstance p /\
    live_factories (fst (c p)) = live_factories p.

(** What a destruction logs when the singleton pointer is null. *)
Definition members_unbuilt : list LifeEvent :=
  [Destroyed PhysicsSystemC; Destroyed BPLayerInterfaceC;
   Destroyed JobSystemC; Destroyed TempAllocatorC].

(** * Properties *)

(** ** Arithmetic of layer tags *)

Lemma promote_unknown (o : ObjectLayer) :
  2 <= o ->
  (promote o =? Layers.to_int Layers.NON_MOVING)%Z = false /\
  (promote o =? Layers.to_int Layers.MOVING)%Z = false.
Proof.
  intros H. unfold promote. cbn [Layers.to_int].
  split; apply Z.eqb_neq; lia.
Qed.

Lemma valid_layer_cases (o : ObjectLayer) :
  valid_layer o ->
  o = object_layer Layers.NON_MOVING \/ o = object_layer Layers.MOVING.
Proof.
  unfold valid_layer, object_layer. cbn. lia.
Qed.

Lemma promote_in_range (o : ObjectLayer) :
  2 <= o -> (promote o <? Layers.to_int Layers.NUM_LAYERS)%Z = false.
Proof.
  intros H. unfold promote. cbn [Layers.to_int]. apply Z.ltb_ge. lia.
Qed.

(** ** The assertion macro *)

Lemma JPH_ASSERT_disabled (b : Build) (c : bool) (e : string) (l : uint)
  (p : Process) :
  JPH_ENABLE_ASSERTS b = false -> JPH_ASSERT b c e l p = (p, Returned tt).
Proof.
  intros H. unfold JPH_ASSERT. now rewrite H.
Qed.

Lemma JPH_ASSERT_holds (b : Build) (e : string) (l : uint) (p : Process) :
  JPH_ASSERT b true e l p = (p, Returned tt).
Proof.
  unfold JPH_ASSERT. now destruct (JPH_ENABLE_ASSERTS b).
Qed.

Lemma JPH_ASSERT_fails (b : Build) (e : string) (l : uint) (p : Process) :
  JPH_ENABLE_ASSERTS b = true ->
  AssertFailed p = AssertFailedImpl ->
  JPH_ASSERT b false e l p = (reported b e l p, Trapped).
Proof.
  intros Hb Hs. unfold JPH_ASSERT. rewrite Hb, Hs. reflexivity.
Qed.

(** ** The mapper *)

Lemma BPLayerInterfaceImpl_ctor_runs (p : Process) :
  BPLayerInterfaceImpl_ctor p =
  (log_event (Constructed BPLayerInterfaceC) p, Returned the_mapper).
Proof. reflexivity. Qed.

Lemma GetBroadPhaseLayer_valid (b : Build) (o : ObjectLayer) (p : Process) :
  valid_layer o ->
  GetBroadPhaseLayer b the_mapper o p = (p, Returned (mkBroadPhaseLayer o)).
Proof.
  intros H. destruct (valid_layer_cases o H) as [-> | ->];
    unfold GetBroadPhaseLayer, bind; cbn -[JPH_ASSERT];
    rewrite JPH_ASSERT_holds; reflexivity.
Qed.

(** ** Claims about the filters and the mapper *)

(** C1.  Two non-moving layers never collide: [MyObjectCanCollide] on
    (NON_MOVING, NON_MOVING) returns false, in every build and in every
    process state, and leaves the process as it was. *)
Theorem MyObjectCanCollide_non_moving_pair (b : Build) (p : Process) :
  MyObjectCanCollide b (object_layer Layers.NON_MOVING)
                       (object_layer Layers.NON_MOVING) p
  = (p, Returned false).
Proof. reflexivity. Qed.

(** C2.  For valid object layers of which at least one is MOVING,
    [MyObjectCanCollide] returns true, whichever argument it is. *)
Theorem MyObjectCanCollide_moving (b : Build) (p : Process)
  (o1 o2 : ObjectLayer) :
  valid_layer o1 -> valid_layer o2 ->
  o1 = object_layer Layers.MOVING \/ o2 = object_layer Layers.MOVING ->
  MyObjectCanCollide b o1 o2 p = (p, Returned true).
Proof.
  intros H1 H2 Hm.
  destruct (valid_layer_cases o1 H1) as [-> | ->];
    destruct (valid_layer_cases o2 H2) as [-> | ->];
    try reflexivity.
  destruct Hm as [Hm | Hm]; discriminate Hm.
Qed.

Lemma MyObjectCanCollide_moving_witness :
  MyObjectCanCollide debug_build 0 1 boot = (boot, Returned true) /\
  MyObjectCanCollide debug_build 1 0 boot = (boot, Returned true).
Proof.
  split.
  - apply (MyObjectCanCollide_moving debug_build boot 0 1);
      [reflexivity | reflexivity | right; reflexivity].
  - apply (MyObjectCanCollide_moving debug_build boot 1 0);
      [reflexivity | reflexivity | left; reflexivity].
Defined.

(** C3.  With the mapper the constructor builds, the broadphase filter
    applied to the broadphase layer of [o2] answers what the object-layer
    filter answers on [o1] and [o2], for all valid object layers. *)
Theorem broadphase_filter_agrees (b : Build) (p0 p1 : Process)
  (m : BPLayerInterfaceImpl) (p : Process) (o1 o2 : ObjectLayer) :
  BPLayerInterfaceImpl_ctor p0 = (p1, Returned m) ->
  valid_layer o1 -> valid_layer o2 ->
  (bl <- GetBroadPhaseLayer b m o2 ;; MyBroadPhaseCanCollide b o1 bl) p
  = MyObjectCanCollide b o1 o2 p.
Proof.
  intros Hm H1 H2. rewrite BPLayerInterfaceImpl_ctor_runs in Hm.
  injection Hm as _ <-.
  unfold bind at 1. rewrite (GetBroadPhaseLayer_valid b o2 p H2).
  destruct (valid_layer_cases o1 H1) as [-> | ->];
    destruct (valid_layer_cases o2 H2) as [-> | ->]; reflexivity.
Qed.

Lemma broadphase_filter_agrees_witness :
  (bl <- GetBroadPhaseLayer debug_build the_mapper 1 ;;
   MyBroadPhaseCanCollide debug_build 0 bl) boot
  = MyObjectCanCollide debug_build 0 1 boot.
Proof.
  apply (broadphase_filter_agrees debug_build boot
           (log_event (Constructed BPLayerInterfaceC) boot) the_mapper boot 0 1);
    reflexivity.
Defined.

(** C4.  The mapper the constructor builds sends NON_MOVING to the
    broadphase layer NON_MOVING and MOVING to the broadphase layer MOVING;
    these are two different layers, so the mapping is one-to-one on the
    object layers; and [GetNumBroadPhaseLayers] is 2, the number of
    distinct values [GetBroadPhaseLayer] returns over the object layers. *)
Theorem mapper_one_to_one (b : Build) (p0 p1 : Process)
  (m : BPLayerInterfaceImpl) (p : Process) :
  BPLayerInterfaceImpl_ctor p0 = (p1, Returned m) ->
  GetBroadPhaseLayer b m (object_layer Layers.NON_MOVING) p
    = (p, Returned BroadPhaseLayers.NON_MOVING) /\
  GetBroadPhaseLayer b m (object_layer Layers.MOVING) p
    = (p, Returned BroadPhaseLayers.MOVING) /\
  BroadPhaseLayers.NON_MOVING <> BroadPhaseLayers.MOVING /\
  (forall o1 o2 : ObjectLayer,
      valid_layer o1 -> valid_layer o2 ->
      GetBroadPhaseLayer b m o1 p = GetBroadPhaseLayer b m o2 p -> o1 = o2) /\
  object_layer_domain
    = [object_layer Layers.NON_MOVING; object_layer Layers.MOVING] /\
  GetNumBroadPhaseLayers m = 2 /\
  N.to_nat (GetNumBroadPhaseLayers m) = distinct_layers b m p.
Proof.
  intros Hm. rewrite BPLayerInterfaceImpl_ctor_runs in Hm.
  injection Hm as _ <-.
  repeat split.
  - apply GetBroadPhaseLayer_valid. reflexivity.
  - apply GetBroadPhaseLayer_valid. reflexivity.
  - discriminate.
  - intros o1 o2 H1 H2.
    rewrite (GetBroadPhaseLayer_valid b o1 p H1).
    rewrite (GetBroadPhaseLayer_valid b o2 p H2).
    intros E. now injection E.
  - destruct b as [[|] file jobs barriers]; reflexivity.
Qed.

Lemma mapper_one_to_one_witness :
  GetBroadPhaseLayer debug_build the_mapper 1 boot
    = (boot, Returned BroadPhaseLayers.MOVING) /\
  N.to_nat (GetNumBroadPhaseLayers the_mapper)
    = distinct_layers debug_build the_mapper boot.
Proof.
  pose proof (mapper_one_to_one debug_build boot
                (log_event (Constructed BPLayerInterfaceC) boot)
                the_mapper boot eq_refl) as H.
  split; [apply H | apply H].
Defined.

(** ** Unknown layers *)

(** C10.  In a build without assertions both filters are total and fall
    back to false: for every first argument outside {0, 1},
    [MyObjectCanCollide] returns false for every second argument and
    [MyBroadPhaseCanCollide] returns false for every broadphase layer, and
    the process is left as it was. *)
Theorem filters_fall_back_to_false (b : Build) (o : ObjectLayer) (p : Process) :
  JPH_ENABLE_ASSERTS b = false ->
  2 <= o ->
  (forall o2 : ObjectLayer, MyObjectCanCollide b o o2 p = (p, Returned false)) /\
  (forall bl : BroadPhaseLayer,
      MyBroadPhaseCanCollide b o bl p = (p, Returned false)).
Proof.
  intros Hb Ho. destruct (promote_unknown o Ho) as [H0 H1].
  split; intros x.
  - unfold MyObjectCanCollide. rewrite H0, H1.
    unfold bind. now rewrite (JPH_ASSERT_disabled b false "false" 64 p Hb).
  - unfold MyBroadPhaseCanCollide. rewrite H0, H1.
    unfold bind. now rewrite (JPH_ASSERT_disabled b false "false" 126 p Hb).
Qed.

Lemma filters_fall_back_to_false_witness :
  (forall o2 : ObjectLayer,
      MyObjectCanCollide release_build 7 o2 boot = (boot, Returned false)) /\
  (forall bl : BroadPhaseLayer,
      MyBroadPhaseCanCollide release_build 7 bl boot = (boot, Returned false)).
Proof.
  apply (filters_fall_back_to_false release_build 7 boot);
    [reflexivity | lia].
Defined.

(** C5, as stated, fails twice.  In a build without assertions the unknown
    layer 2 gets the silent answer false from both filters, and nothing is
    reported.  In a build with assertions, and with the callback of the
    driver installed, the object-layer filter still answers true on
    (MOVING, 2): its second argument is never checked. *)
Lemma unknown_layer_silently_answered :
  MyObjectCanCollide release_build 2 0 boot = (boot, Returned false) /\
  MyBroadPhaseCanCollide release_build 2 BroadPhaseLayers.MOVING boot
    = (boot, Returned false) /\
  AssertFailed (with_driver debug_build 4) = AssertFailedImpl /\
  MyObjectCanCollide debug_build 1 2 (with_driver debug_build 4)
    = (with_driver debug_build 4, Returned true).
Proof. repeat split. Qed.

(** C5, amended.  In a build with assertions, and with the callback of the
    driver installed, an unknown layer (any value of 2 or more) given as the
    first argument of [MyObjectCanCollide] or of [MyBroadPhaseCanCollide],
    or as the argument of [GetBroadPhaseLayer], is reported to the
    assertion callback, which prints the failed expression with its file
    and line and asks for a break: the call stops there and returns no
    result. *)
Theorem unknown_layer_asserts (b : Build) (o : ObjectLayer) (p : Process) :
  JPH_ENABLE_ASSERTS b = true ->
  AssertFailed p = AssertFailedImpl ->
  2 <= o ->
  (forall o2 : ObjectLayer,
      MyObjectCanCollide b o o2 p = (reported b "false" 64 p, Trapped)) /\
  (forall bl : BroadPhaseLayer,
      MyBroadPhaseCanCollide b o bl p = (reported b "false" 126 p, Trapped)) /\
  (forall m : BPLayerInterfaceImpl,
      GetBroadPhaseLayer b m o p
      = (reported b "inLayer < (int)Layers::NUM_LAYERS" 96 p, Trapped)).
Proof.
  intros Hb Hs Ho. destruct (promote_unknown o Ho) as [H0 H1].
  repeat split; intros x.
  - unfold MyObjectCanCollide. rewrite H0, H1.
    unfold bind. now rewrite (JPH_ASSERT_fails b "false" 64 p Hb Hs).
  - unfold MyBroadPhaseCanCollide. rewrite H0, H1.
    unfold bind. now rewrite (JPH_ASSERT_fails b "false" 126 p Hb Hs).
  - unfold GetBroadPhaseLayer. rewrite (promote_in_range o Ho).
    unfold bind. now rewrite (JPH_ASSERT_fails b _ 96 p Hb Hs).
Qed.

Lemma unknown_layer_asserts_witness :
  MyObjectCanCollide debug_build 2 0 (with_driver debug_build 4)
  = (reported debug_build "false" 64 (with_driver debug_build 4), Trapped) /\
  cout (reported debug_build "false" 64 (with_driver debug_build 4))
  = ["JoltJS.h:64: (false) "%string].
Proof.
  split; [| reflexivity].
  apply (unknown_layer_asserts debug_build 2 (with_driver debug_build 4));
    [reflexivity | reflexivity | lia].
Defined.

(** ** Construction and destruction of the driver *)

Lemma thread_count (hw : uint) (p : Process) :
  hw < 2 ^ 31 ->
  int_sub (to_int hw) 1 p = (p, Returned (Z.of_N hw - 1)%Z).
Proof.
  intros H. unfold int_sub, to_int.
  apply N.ltb_lt in H as Hlt. rewrite Hlt.
  assert (Hr : ((INT_MIN <=? Z.of_N hw - 1) && (Z.of_N hw - 1 <=? INT_MAX))%Z
               = true).
  { change (2 ^ 31) with 2147483648 in H.
    unfold INT_MIN, INT_MAX. change (2 ^ 31)%Z with 2147483648%Z.
    apply andb_true_iff. split; apply Z.leb_le; lia. }
  rewrite Hr. reflexivity.
Qed.

Lemma int_sub_cases (x y : Z) (p : Process) :
  int_sub x y p = (p, Returned (x - y)%Z) \/ int_sub x y p = (p, Undefined).
Proof.
  unfold int_sub.
  destruct ((INT_MIN <=? x - y) && (x - y <=? INT_MAX))%Z; [left | right];
    reflexivity.
Qed.

Lemma JoltInterface_ctor_with (b : Build) (hw : uint) (p : Process) (n : Z) :
  int_sub (to_int hw) 1 (log_event (Constructed TempAllocatorC) p)
  = (log_event (Constructed TempAllocatorC) p, Returned n) ->
  JoltInterface_ctor b hw p
  = (constructed_process b p, Returned (constructed_driver b n)).
Proof.
  intros H.
  cbv beta iota delta [JoltInterface_ctor bind TempAllocatorImpl_ctor modify ret].
  rewrite H.
  cbv beta iota delta [JobSystemThreadPool_ctor bind modify ret].
  rewrite BPLayerInterfaceImpl_ctor_runs.
  unfold constructed_process, constructed_driver, built.
  destruct b as [[|] file jobs barriers];
    cbn -[fresh_ptr N.mul Z.sub app];
    unfold with_heap, with_sInstance, log_event;
    cbn -[fresh_ptr N.mul Z.sub app];
    repeat rewrite <- app_assoc; reflexivity.
Qed.

Lemma JoltInterface_ctor_runs (b : Build) (hw : uint) (p : Process) :
  hw < 2 ^ 31 ->
  JoltInterface_ctor b hw p
  = (constructed_process b p, Returned (constructed_driver b (Z.of_N hw - 1))).
Proof.
  intros H. apply JoltInterface_ctor_with. now apply thread_count.
Qed.

Lemma JoltInterface_ctor_returned (b : Build) (hw : uint) (p p1 : Process)
  (this : JoltInterface) :
  JoltInterface_ctor b hw p = (p1, Returned this) ->
  p1 = constructed_process b p /\
  this = constructed_driver b (to_int hw - 1).
Proof.
  intros H.
  destruct (int_sub_cases (to_int hw) 1
              (log_event (Constructed TempAllocatorC) p)) as [E | E].
  - rewrite (JoltInterface_ctor_with b hw p _ E) in H.
    injection H as <- <-. split; reflexivity.
  - exfalso. revert H.
    cbv beta iota delta [JoltInterface_ctor bind TempAllocatorImpl_ctor modify ret].
    rewrite E. discriminate.
Qed.

Lemma fresh_ptr_above (live : list FactoryPtr) (f : FactoryPtr) :
  In f live -> (f < fresh_ptr live)%nat.
Proof.
  unfold fresh_ptr. induction live as [| g tl IH]; intros Hin.
  - destruct Hin.
  - cbn [fold_right]. destruct Hin as [-> | Hin].
    + lia.
    + specialize (IH Hin). lia.
Qed.

Lemma is_live_In (f : FactoryPtr) (p : Process) :
  is_live f p = true <-> In f (live_factories p).
Proof.
  unfold is_live. rewrite existsb_exists. split.
  - intros [g [Hin Heq]]. apply Nat.eqb_eq in Heq. now subst g.
  - intros Hin. exists f. split; [assumption | apply Nat.eqb_refl].
Qed.

Lemma not_live_after_delete (f : FactoryPtr) (l : list FactoryPtr) :
  existsb (Nat.eqb f) (filter (fun g => negb (Nat.eqb f g)) l) = false.
Proof.
  induction l as [| g tl IH]; [reflexivity |].
  cbn [filter]. destruct (Nat.eqb f g) eqn:E; cbn [negb].
  - exact IH.
  - cbn [existsb]. now rewrite E, IH.
Qed.

Lemma JoltInterface_dtor_runs (this : JoltInterface) (p : Process)
  (f : FactoryPtr) :
  Factory_sInstance p = Some f ->
  is_live f p = true ->
  JoltInterface_dtor this p = (destroyed_process f p, Returned tt).
Proof.
  intros Hs Hl.
  cbv beta iota delta [JoltInterface_dtor bind get_sInstance modify ret].
  rewrite Hs. cbv beta iota delta [delete_Factory]. rewrite Hl.
  unfold destroyed_process, built, PhysicsSystem_dtor,
    BPLayerInterfaceImpl_dtor, JobSystemThreadPool_dtor,
    TempAllocatorImpl_dtor, modify, with_heap, with_sInstance, log_event.
  cbn -[filter app]. repeat rewrite <- app_assoc. reflexivity.
Qed.

(** C8.  Construction gives the driver a scratch arena of exactly
    10 * 1024 * 1024 = 10485760 bytes, empty; a job pool asked for
    (hardware concurrency - 1) threads, with the engine's maximum numbers
    of jobs and of barriers; and a world initialised with the fixed limits
    of 1024 bodies, 1024 body pairs and 1024 contact constraints, the
    mapper of the driver and the two filters. *)
Theorem construction_parameters (b : Build) (hw : uint) (p : Process) :
  hw < 2 ^ 31 ->
  exists (this : JoltInterface) (p' : Process),
    JoltInterface_ctor b hw p = (p', Returned this) /\
    mSize (mTempAllocator this) = 10 * 1024 * 1024 /\
    mSize (mTempAllocator this) = 10485760 /\
    mTop (mTempAllocator this) = 0 /\
    mNumThreads (mJobSystem this) = (Z.of_N hw - 1)%Z /\
    mMaxJobs (mJobSystem this) = cMaxPhysicsJobs b /\
    mMaxBarriers (mJobSystem this) = cMaxPhysicsBarriers b /\
    mMaxBodies (mPhysicsSystem this) = 1024 /\
    mMaxBodyPairs (mPhysicsSystem this) = 1024 /\
    mMaxContactConstraints (mPhysicsSystem this) = 1024 /\
    mBroadPhaseLayerInterface (mPhysicsSystem this)
      = Some (mBPLayerInterface this) /\
    mObjectVsBroadPhaseLayerFilter (mPhysicsSystem this)
      = Some (MyBroadPhaseCanCollide b) /\
    mObjectLayerPairFilter (mPhysicsSystem this)
      = Some (MyObjectCanCollide b).
Proof.
  intros H.
  exists (constructed_driver b (Z.of_N hw - 1)), (constructed_process b p).
  split; [now apply JoltInterface_ctor_runs |].
  repeat split.
Qed.

Lemma construction_parameters_witness :
  exists (this : JoltInterface) (p' : Process),
    JoltInterface_ctor debug_build 8 boot = (p', Returned this) /\
    mSize (mTempAllocator this) = 10 * 1024 * 1024 /\
    mSize (mTempAllocator this) = 10485760 /\
    mTop (mTempAllocator this) = 0 /\
    mNumThreads (mJobSystem this) = 7%Z /\
    mMaxJobs (mJobSystem this) = 2048%Z /\
    mMaxBarriers (mJobSystem this) = 8%Z /\
    mMaxBodies (mPhysicsSystem this) = 1024 /\
    mMaxBodyPairs (mPhysicsSystem this) = 1024 /\
    mMaxContactConstraints (mPhysicsSystem this) = 1024 /\
    mBroadPhaseLayerInterface (mPhysicsSystem this)
      = Some (mBPLayerInterface this) /\
    mObjectVsBroadPhaseLayerFilter (mPhysicsSystem this)
      = Some (MyBroadPhaseCanCollide debug_build) /\
    mObjectLayerPairFilter (mPhysicsSystem this)
      = Some (MyObjectCanCollide debug_build).
Proof.
  apply (construction_parameters debug_build 8 boot). reflexivity.
Defined.

(** C6, as stated, fails.  A second driver constructed in the process in
    which a first one is live is constructed like the first: the call
    returns, nothing is printed, and the singleton pointer, which was the
    first factory, is now a second factory, both being allocated. *)
Lemma second_driver_not_rejected :
  Factory_sInstance (with_driver debug_build 4) = Some 1%nat /\
  exists (this : JoltInterface) (p' : Process),
    JoltInterface_ctor debug_build 4 (with_driver debug_build 4)
      = (p', Returned this) /\
    cout p' = [] /\
    Factory_sInstance p' = Some 2%nat /\
    live_factories p' = [2; 1]%nat.
Proof.
  split; [reflexivity |].
  exists (constructed_driver debug_build 3),
         (constructed_process debug_build (with_driver debug_build 4)).
  repeat split.
Qed.

(** C6, amended.  The constructor does not look at the singleton.  In a
    process in which a driver is live (the singleton pointer is a live
    factory), constructing another driver returns normally and prints
    nothing; it allocates a new factory, different from the live one, and
    overwrites the singleton pointer with it; the earlier factory stays
    allocated. *)
Theorem second_driver_replaces_factory (b : Build) (hw : uint) (p : Process)
  (f : FactoryPtr) :
  hw < 2 ^ 31 ->
  Factory_sInstance p = Some f ->
  is_live f p = true ->
  exists (this : JoltInterface) (p' : Process),
    JoltInterface_ctor b hw p = (p', Returned this) /\
    cout p' = cout p /\
    Factory_sInstance p' = Some (fresh_ptr (live_factories p)) /\
    fresh_ptr (live_factories p) <> f /\
    is_live (fresh_ptr (live_factories p)) p' = true /\
    is_live f p' = true.
Proof.
  intros H Hs Hl.
  exists (constructed_driver b (Z.of_N hw - 1)), (constructed_process b p).
  split; [now apply JoltInterface_ctor_runs |].
  split; [reflexivity |]. split; [reflexivity |].
  apply is_live_In in Hl as Hin.
  pose proof (fresh_ptr_above (live_factories p) f Hin) as Hlt.
  split; [lia |].
  split; apply is_live_In; cbn [constructed_process live_factories].
  - left. reflexivity.
  - right. exact Hin.
Qed.

Lemma second_driver_replaces_factory_witness :
  exists (this : JoltInterface) (p' : Process),
    JoltInterface_ctor debug_build 4 (with_driver debug_build 4)
      = (p', Returned this) /\
    cout p' = cout (with_driver debug_build 4) /\
    Factory_sInstance p'
      = Some (fresh_ptr (live_factories (with_driver debug_build 4))) /\
    fresh_ptr (live_factories (with_driver debug_build 4)) <> 1%nat /\
    is_live (fresh_ptr (live_factories (with_driver debug_build 4))) p' = true /\
    is_live 1%nat p' = true.
Proof.
  apply (second_driver_replaces_factory debug_build 4
           (with_driver debug_build 4) 1%nat); reflexivity.
Defined.

(** C7, as stated, fails.  In the lifetime of a driver constructed and
    then destroyed, the world and the job pool are not destroyed before the
    factory singleton: the singleton is destroyed before both. *)
Lemma singleton_destroyed_first :
  snd (construct_then_destroy debug_build 4 boot) = Returned tt /\
  happens_before (Destroyed PhysicsSystemC) (Destroyed FactoryC)
                 (lifetime_log debug_build 4) = false /\
  happens_before (Destroyed JobSystemC) (Destroyed FactoryC)
                 (lifetime_log debug_build 4) = false /\
  happens_before (Destroyed FactoryC) (Destroyed PhysicsSystemC)
                 (lifetime_log debug_build 4) = true /\
  happens_before (Destroyed FactoryC) (Destroyed JobSystemC)
                 (lifetime_log debug_build 4) = true.
Proof. repeat split. Qed.

(** C7, amended.  Destruction first destroys the factory singleton and
    sets the singleton pointer to null, and then destroys the world, the
    mapper, the job pool and the scratch arena.  This is the strict reverse
    of the order of construction (arena, job pool, mapper, world, factory),
    and the factory is no longer allocated afterwards. *)
Theorem destruction_reverses_construction (b : Build) (hw : uint)
  (p p1 : Process) (this : JoltInterface) (q : Process) (f : FactoryPtr) :
  JoltInterface_ctor b hw p = (p1, Returned this) ->
  Factory_sInstance q = Some f ->
  is_live f q = true ->
  exists q' : Process,
    JoltInterface_dtor this q = (q', Returned tt) /\
    lifetimes p1 = lifetimes p ++ built /\
    lifetimes q' = lifetimes q ++ map undo (rev built) /\
    map undo (rev built) = unbuilt /\
    happens_before (Destroyed FactoryC) (Destroyed PhysicsSystemC) unbuilt
      = true /\
    happens_before (Destroyed PhysicsSystemC) (Destroyed JobSystemC) unbuilt
      = true /\
    Factory_sInstance q' = None /\
    is_live f q' = false.
Proof.
  intros Hc Hs Hl.
  destruct (JoltInterface_ctor_returned b hw p p1 this Hc) as [-> _].
  exists (destroyed_process f q).
  split; [now apply JoltInterface_dtor_runs |].
  repeat split.
  unfold is_live. cbn [destroyed_process live_factories].
  apply not_live_after_delete.
Qed.

Lemma destruction_reverses_construction_witness :
  exists q' : Process,
    JoltInterface_dtor (constructed_driver debug_build 3)
                       (with_driver debug_build 4) = (q', Returned tt) /\
    lifetimes (with_driver debug_build 4) = lifetimes boot ++ built /\
    lifetimes q' = lifetimes (with_driver debug_build 4) ++ map undo (rev built) /\
    map undo (rev built) = unbuilt /\
    happens_before (Destroyed FactoryC) (Destroyed PhysicsSystemC) unbuilt
      = true /\
    happens_before (Destroyed PhysicsSystemC) (Destroyed JobSystemC) unbuilt
      = true /\
    Factory_sInstance q' = None /\
    is_live 1%nat q' = false.
Proof.
  apply (destruction_reverses_construction debug_build 4 boot
           (with_driver debug_build 4) (constructed_driver debug_build 3)
           (with_driver debug_build 4) 1%nat); reflexivity.
Defined.

(** ** The step *)

Lemma bind_returned_inv {A B : Type} (c : Proc A) (k : A -> Proc B)
  (p p' : Process) (y : B) :
  bind c k p = (p', Returned y) ->
  exists (q : Process) (a : A), c p = (q, Returned a) /\ k a q = (p', Returned y).
Proof.
  unfold bind. destruct (c p) as [q [a | |]]; intros H; try discriminate H.
  exists q, a. split; [reflexivity | exact H].
Qed.

Lemma Allocate_returned (n : uint) (a a' : TempAllocatorImpl) (p p' : Process) :
  TempAllocator_Allocate n a p = (p', Returned a') ->
  p' = p /\ a' = mkTempAllocatorImpl (mSize a) (mTop a + n) /\
  mTop a + n <= mSize a.
Proof.
  unfold TempAllocator_Allocate.
  destruct (mTop a + n <=? mSize a) eqn:E.
  - intros H. injection H as <- <-. apply N.leb_le in E. auto.
  - unfold bind, modify, trap. discriminate.
Qed.

Lemma Free_returned (n : uint) (a a' : TempAllocatorImpl) (p p' : Process) :
  TempAllocator_Free n a p = (p', Returned a') ->
  p' = p /\ a' = mkTempAllocatorImpl (mSize a) (mTop a - n) /\ n <= mTop a.
Proof.
  unfold TempAllocator_Free.
  destruct (n <=? mTop a) eqn:E.
  - intros H. injection H as <- <-. apply N.leb_le in E. auto.
  - unfold undefined. discriminate.
Qed.

(** The substeps of a collision step hand the arena back as they got it. *)
Lemma integration_substeps_balanced (w : PhysicsSystem) (n : nat) :
  forall (a a' : TempAllocatorImpl) (p p' : Process),
    integration_substeps w n a p = (p', Returned a') ->
    mTop a' = mTop a /\ mSize a' = mSize a.
Proof.
  induction n as [| n IH]; intros a a' p p' H.
  - injection H as _ <-. split; reflexivity.
  - cbn [integration_substeps] in H.
    apply bind_returned_inv in H as (q1 & a1 & H1 & H).
    apply bind_returned_inv in H as (q2 & a2 & H2 & H).
    apply Allocate_returned in H1 as (_ & -> & _).
    apply Free_returned in H2 as (_ & -> & _).
    apply IH in H as [Ht Hs]. cbn [mTop mSize] in Ht, Hs.
    split; [lia | exact Hs].
Qed.

(** So do the collision steps. *)
Lemma collision_steps_balanced (w : PhysicsSystem) (subs n : nat) :
  forall (a a' : TempAllocatorImpl) (p p' : Process),
    collision_steps w n subs a p = (p', Returned a') ->
    mTop a' = mTop a /\ mSize a' = mSize a.
Proof.
  induction n as [| n IH]; intros a a' p p' H.
  - injection H as _ <-. split; reflexivity.
  - cbn [collision_steps] in H.
    apply bind_returned_inv in H as (q1 & a1 & H1 & H).
    apply bind_returned_inv in H as (q2 & a2 & H2 & H).
    apply bind_returned_inv in H as (q3 & a3 & H3 & H).
    apply Allocate_returned in H1 as (_ & -> & _).
    apply integration_substeps_balanced in H2 as [Ht2 Hs2].
    apply Free_returned in H3 as (_ & -> & _).
    apply IH in H as [Ht Hs]. cbn [mTop mSize] in Ht, Hs, Ht2, Hs2.
    split; [lia | congruence].
Qed.

(** A step whose demand fits the arena runs to completion, with nothing
    printed. *)
Lemma integration_substeps_fit (w : PhysicsSystem) (n : nat)
  (a : TempAllocatorImpl) (p : Process) :
  mTop a + mIslandBytes w <= mSize a ->
  integration_substeps w n a p = (p, Returned a).
Proof.
  intros Hfit. induction n as [| n IH]; [reflexivity |].
  cbn [integration_substeps]. unfold bind at 1.
  unfold TempAllocator_Allocate.
  apply N.leb_le in Hfit as Hle. rewrite Hle. unfold ret at 1.
  unfold bind at 1. unfold TempAllocator_Free. cbn [mTop mSize].
  assert (Hf : (mIslandBytes w <=? mTop a + mIslandBytes w) = true)
    by (apply N.leb_le; lia).
  rewrite Hf. unfold ret at 1.
  rewrite N.add_sub. destruct a as [size top]. exact IH.
Qed.

Lemma collision_steps_fit (w : PhysicsSystem) (n subs : nat)
  (a : TempAllocatorImpl) (p : Process) :
  mTop a + mContactBytes w + mIslandBytes w <= mSize a ->
  collision_steps w n subs a p = (p, Returned a).
Proof.
  intros Hfit. induction n as [| n IH]; [reflexivity |].
  cbn [collision_steps]. unfold bind at 1.
  unfold TempAllocator_Allocate.
  assert (Hle : (mTop a + mContactBytes w <=? mSize a) = true)
    by (apply N.leb_le; lia).
  rewrite Hle. unfold ret at 1.
  unfold bind at 1.
  rewrite integration_substeps_fit by (cbn [mTop mSize]; lia).
  unfold bind at 1. unfold TempAllocator_Free. cbn [mTop mSize].
  assert (Hf : (mContactBytes w <=? mTop a + mContactBytes w) = true)
    by (apply N.leb_le; lia).
  rewrite Hf. unfold ret at 1.
  rewrite N.add_sub. destruct a as [size top]. exact IH.
Qed.

Lemma Step_completes (this : JoltInterface) (dt : float) (cs iss : Z)
  (p : Process) :
  mContactBytes (mPhysicsSystem this) + mIslandBytes (mPhysicsSystem this)
    <= mSize (mTempAllocator this) ->
  exists this' : JoltInterface, Step this dt cs iss p = (p, Returned this').
Proof.
  intros Hfit. unfold Step, PhysicsSystem_Update.
  unfold bind at 1. unfold bind at 1.
  rewrite collision_steps_fit by (cbn [mTop mSize]; lia).
  unfold ret. eexists. reflexivity.
Qed.

(** C9.  When a call of [Step] returns, the scratch arena of the driver has
    no byte in use, whatever the time step, the numbers of collision steps
    and of integration substeps, and the content of the world. *)
Theorem Step_leaves_arena_empty (this : JoltInterface) (dt : float)
  (cs iss : Z) (p p' : Process) (this' : JoltInterface) :
  Step this dt cs iss p = (p', Returned this') ->
  mTop (mTempAllocator this') = 0.
Proof.
  intros H. unfold Step in H.
  apply bind_returned_inv in H as (q & r & Hu & H).
  injection H as _ <-. cbn [mTempAllocator].
  unfold PhysicsSystem_Update in Hu.
  apply bind_returned_inv in Hu as (q' & a & Hc & Hu).
  injection Hu as _ <-. cbn [snd].
  apply collision_steps_balanced in Hc as [Ht _]. exact Ht.
Qed.

Lemma Step_leaves_arena_empty_witness :
  snd (Step loaded_driver (1 # 60)%Q 2 3 (with_driver debug_build 4))
    = Returned (returned_or loaded_driver
                  (Step loaded_driver (1 # 60)%Q 2 3 (with_driver debug_build 4))) /\
  mTop (mTempAllocator
          (returned_or loaded_driver
             (Step loaded_driver (1 # 60)%Q 2 3 (with_driver debug_build 4))))
  = 0.
Proof.
  split; [reflexivity |].
  apply (Step_leaves_arena_empty loaded_driver (1 # 60)%Q 2 3
           (with_driver debug_build 4)
           (fst (Step loaded_driver (1 # 60)%Q 2 3 (with_driver debug_build 4)))).
  reflexivity.
Defined.

(** * Further properties of the header *)

(** ** The object-layer filter beyond the claims *)

(** For a valid first argument the object-layer filter returns for every
    second argument, known or not, without an assertion and without a
    change of the process: the answer is true exactly when one of the two
    arguments is MOVING. *)
Theorem MyObjectCanCollide_any_second (b : Build) (o1 o2 : ObjectLayer)
  (p : Process) :
  valid_layer o1 ->
  MyObjectCanCollide b o1 o2 p
  = (p, Returned ((o1 =? object_layer Layers.MOVING)
                  || (o2 =? object_layer Layers.MOVING))).
Proof.
  intros H1. destruct (valid_layer_cases o1 H1) as [-> | ->].
  - unfold MyObjectCanCollide, ret, promote, object_layer.
    cbn [Layers.to_int Z.of_N Z.eqb Z.to_N N.eqb orb].
    destruct o2 as [| q]; [reflexivity |].
    cbn [Z.of_N Z.eqb N.eqb]. reflexivity.
  - reflexivity.
Qed.

Lemma MyObjectCanCollide_any_second_witness :
  MyObjectCanCollide debug_build 0 9 (with_driver debug_build 4)
  = (with_driver debug_build 4, Returned false).
Proof.
  apply (MyObjectCanCollide_any_second debug_build 0 9
           (with_driver debug_build 4)).
  reflexivity.
Defined.

(** On valid object layers the object-layer filter is symmetric. *)
Theorem MyObjectCanCollide_symmetric (b : Build) (o1 o2 : ObjectLayer)
  (p : Process) :
  valid_layer o1 -> valid_layer o2 ->
  MyObjectCanCollide b o1 o2 p = MyObjectCanCollide b o2 o1 p.
Proof.
  intros H1 H2.
  destruct (valid_layer_cases o1 H1) as [-> | ->];
    destruct (valid_layer_cases o2 H2) as [-> | ->]; reflexivity.
Qed.

Lemma MyObjectCanCollide_symmetric_witness :
  MyObjectCanCollide debug_build 0 1 boot
  = MyObjectCanCollide debug_build 1 0 boot.
Proof.
  apply (MyObjectCanCollide_symmetric debug_build 0 1 boot); reflexivity.
Defined.

(** With an unknown layer the symmetry is lost, in every build and with
    every assertion hook: MOVING against an unknown layer is answered
    true, the unknown layer against MOVING is never answered true. *)
Theorem MyObjectCanCollide_asymmetric_on_unknown (b : Build) (o : ObjectLayer)
  (p : Process) :
  2 <= o ->
  MyObjectCanCollide b (object_layer Layers.MOVING) o p = (p, Returned true) /\
  snd (MyObjectCanCollide b o (object_layer Layers.MOVING) p) <> Returned true.
Proof.
  intros Ho. split; [reflexivity |].
  destruct (promote_unknown o Ho) as [H0 H1].
  unfold MyObjectCanCollide. rewrite H0, H1.
  unfold bind, JPH_ASSERT, ret.
  destruct (JPH_ENABLE_ASSERTS b); [| discriminate].
  destruct (AssertFailed p _ _ _ _ _) as [out brk].
  destruct brk; discriminate.
Qed.

Lemma MyObjectCanCollide_asymmetric_on_unknown_witness :
  MyObjectCanCollide release_build 1 5 boot = (boot, Returned true) /\
  snd (MyObjectCanCollide release_build 5 1 boot) <> Returned true.
Proof.
  apply (MyObjectCanCollide_asymmetric_on_unknown release_build 5 boot). lia.
Defined.

(** ** The broadphase filter beyond the claims *)

(** For a valid object layer the broadphase filter returns for every
    broadphase layer, known or not, without an assertion and without a
    change of the process: the answer is true exactly when the object layer
    is MOVING or the broadphase layer is MOVING. *)
Theorem MyBroadPhaseCanCollide_any_layer (b : Build) (o : ObjectLayer)
  (bl : BroadPhaseLayer) (p : Process) :
  valid_layer o ->
  MyBroadPhaseCanCollide b o bl p
  = (p, Returned ((o =? object_layer Layers.MOVING)
                  || (mValue bl =? mValue BroadPhaseLayers.MOVING))).
Proof.
  intros H. destruct (valid_layer_cases o H) as [-> | ->]; reflexivity.
Qed.

Lemma MyBroadPhaseCanCollide_any_layer_witness :
  MyBroadPhaseCanCollide debug_build 0 (mkBroadPhaseLayer 200)
                         (with_driver debug_build 4)
  = (with_driver debug_build 4, Returned false).
Proof.
  apply (MyBroadPhaseCanCollide_any_layer debug_build 0 (mkBroadPhaseLayer 200)
           (with_driver debug_build 4)).
  reflexivity.
Defined.

(** ** The mapper beyond the claims *)

(** Every broadphase layer the constructed mapper returns for a valid
    object layer lies below [GetNumBroadPhaseLayers]; the call changes
    nothing in the process. *)
Theorem GetBroadPhaseLayer_below_count (b : Build) (p0 p1 : Process)
  (m : BPLayerInterfaceImpl) (o : ObjectLayer) (p : Process) :
  BPLayerInterfaceImpl_ctor p0 = (p1, Returned m) ->
  valid_layer o ->
  exists bl : BroadPhaseLayer,
    GetBroadPhaseLayer b m o p = (p, Returned bl) /\
    mValue bl < GetNumBroadPhaseLayers m.
Proof.
  intros Hm Ho. rewrite BPLayerInterfaceImpl_ctor_runs in Hm.
  injection Hm as _ <-.
  exists (mkBroadPhaseLayer o). split.
  - now apply GetBroadPhaseLayer_valid.
  - exact Ho.
Qed.

Lemma GetBroadPhaseLayer_below_count_witness :
  exists bl : BroadPhaseLayer,
    GetBroadPhaseLayer debug_build the_mapper 1 boot = (boot, Returned bl) /\
    mValue bl < GetNumBroadPhaseLayers the_mapper.
Proof.
  apply (GetBroadPhaseLayer_below_count debug_build boot
           (log_event (Constructed BPLayerInterfaceC) boot) the_mapper 1 boot);
    reflexivity.
Defined.

(** In a build without assertions nothing guards the table: for a layer of
    2 or more, [GetBroadPhaseLayer] reads past the end of the two-entry
    table of the constructed mapper, which is not defined.  The two
    filters return false on the same layer. *)
Theorem GetBroadPhaseLayer_reads_past_table (b : Build) (p0 p1 : Process)
  (m : BPLayerInterfaceImpl) (o : ObjectLayer) (p : Process) :
  BPLayerInterfaceImpl_ctor p0 = (p1, Returned m) ->
  JPH_ENABLE_ASSERTS b = false ->
  2 <= o ->
  GetBroadPhaseLayer b m o p = (p, Undefined).
Proof.
  intros Hm Hb Ho. rewrite BPLayerInterfaceImpl_ctor_runs in Hm.
  injection Hm as _ <-.
  unfold GetBroadPhaseLayer, bind.
  rewrite (JPH_ASSERT_disabled b _ _ 96 p Hb).
  assert (Hn : nth_error (mObjectToBroadPhase the_mapper) (N.to_nat o) = None).
  { apply nth_error_None. cbn [the_mapper mObjectToBroadPhase List.length]. lia. }
  rewrite Hn. reflexivity.
Qed.

Lemma GetBroadPhaseLayer_reads_past_table_witness :
  GetBroadPhaseLayer release_build the_mapper 2 boot = (boot, Undefined).
Proof.
  apply (GetBroadPhaseLayer_reads_past_table release_build boot
           (log_event (Constructed BPLayerInterfaceC) boot) the_mapper 2 boot);
    [reflexivity | reflexivity | lia].
Defined.

(** ** Names of broadphase layers *)

(** The broadphase layer of a valid object layer always has a name: asking
    the constructed mapper for the layer and then for its name gives
    NON_MOVING for the object layer NON_MOVING and MOVING for MOVING, never
    INVALID, with no assertion and no change of the process. *)
Theorem mapped_layer_has_name (b : Build) (p0 p1 : Process)
  (m : BPLayerInterfaceImpl) (o : ObjectLayer) (p : Process) :
  BPLayerInterfaceImpl_ctor p0 = (p1, Returned m) ->
  valid_layer o ->
  (bl <- GetBroadPhaseLayer b m o ;; GetBroadPhaseLayerName b m bl) p
  = (p, Returned (if o =? object_layer Layers.NON_MOVING
                  then "NON_MOVING"%string else "MOVING"%string)).
Proof.
  intros Hm Ho. rewrite BPLayerInterfaceImpl_ctor_runs in Hm.
  injection Hm as _ <-.
  unfold bind at 1. rewrite (GetBroadPhaseLayer_valid b o p Ho).
  destruct (valid_layer_cases o Ho) as [-> | ->]; reflexivity.
Qed.

Lemma mapped_layer_has_name_witness :
  (bl <- GetBroadPhaseLayer debug_build the_mapper 1 ;;
   GetBroadPhaseLayerName debug_build the_mapper bl) boot
  = (boot, Returned "MOVING"%string).
Proof.
  apply (mapped_layer_has_name debug_build boot
           (log_event (Constructed BPLayerInterfaceC) boot) the_mapper 1 boot);
    reflexivity.
Defined.

Lemma unknown_broadphase_layer (bl : BroadPhaseLayer) :
  2 <= mValue bl ->
  (mValue bl =? mValue BroadPhaseLayers.NON_MOVING) = false /\
  (mValue bl =? mValue BroadPhaseLayers.MOVING) = false.
Proof.
  intros H. cbn [BroadPhaseLayers.NON_MOVING BroadPhaseLayers.MOVING mValue].
  split; apply N.eqb_neq; lia.
Qed.

(** A broadphase layer that is neither NON_MOVING nor MOVING has no name.
    Without assertions [GetBroadPhaseLayerName] answers INVALID and changes
    nothing; with assertions and the callback of the driver installed, the
    failure is reported with line 107 and the call stops. *)
Theorem unknown_layer_name (b : Build) (m : BPLayerInterfaceImpl)
  (bl : BroadPhaseLayer) (p : Process) :
  2 <= mValue bl ->
  (JPH_ENABLE_ASSERTS b = false ->
   GetBroadPhaseLayerName b m bl p = (p, Returned "INVALID"%string)) /\
  (JPH_ENABLE_ASSERTS b = true -> AssertFailed p = AssertFailedImpl ->
   GetBroadPhaseLayerName b m bl p = (reported b "false" 107 p, Trapped)).
Proof.
  intros H. destruct (unknown_broadphase_layer bl H) as [H0 H1].
  unfold GetBroadPhaseLayerName. rewrite H0, H1. unfold bind.
  split.
  - intros Hb. now rewrite (JPH_ASSERT_disabled b false "false" 107 p Hb).
  - intros Hb Hs. now rewrite (JPH_ASSERT_fails b "false" 107 p Hb Hs).
Qed.

Lemma unknown_layer_name_witness :
  GetBroadPhaseLayerName release_build the_mapper (mkBroadPhaseLayer 2) boot
    = (boot, Returned "INVALID"%string) /\
  GetBroadPhaseLayerName debug_build the_mapper (mkBroadPhaseLayer 2)
                         (with_driver debug_build 4)
    = (reported debug_build "false" 107 (with_driver debug_build 4), Trapped).
Proof.
  split.
  - apply (unknown_layer_name release_build the_mapper (mkBroadPhaseLayer 2) boot);
      [cbn; lia | reflexivity].
  - apply (unknown_layer_name debug_build the_mapper (mkBroadPhaseLayer 2)
             (with_driver debug_build 4));
      [cbn; lia | reflexivity | reflexivity].
Defined.

Lemma name_returned (b : Build) (m : BPLayerInterfaceImpl)
  (bl : BroadPhaseLayer) (p p' : Process) (name : string) :
  GetBroadPhaseLayerName b m bl p = (p', Returned name) ->
  (mValue bl = 0 /\ name = "NON_MOVING"%string) \/
  (mValue bl = 1 /\ name = "MOVING"%string) \/
  name = "INVALID"%string.
Proof.
  unfold GetBroadPhaseLayerName.
  cbn [BroadPhaseLayers.NON_MOVING BroadPhaseLayers.MOVING mValue].
  destruct (mValue bl =? 0) eqn:E0.
  - intros H. injection H as _ <-. apply N.eqb_eq in E0. left. now split.
  - destruct (mValue bl =? 1) eqn:E1.
    + intros H. injection H as _ <-. apply N.eqb_eq in E1.
      right. left. now split.
    + intros H. apply bind_returned_inv in H as (q & u & _ & H).
      injection H as _ <-. right. right. reflexivity.
Qed.

(** The name tells the layers apart: whenever [GetBroadPhaseLayerName]
    returns the same name other than INVALID for two broadphase layers,
    they are the same layer. *)
Theorem layer_name_identifies_layer (b : Build) (m : BPLayerInterfaceImpl)
  (bl1 bl2 : BroadPhaseLayer) (p1 p1' p2 p2' : Process) (name : string) :
  GetBroadPhaseLayerName b m bl1 p1 = (p1', Returned name) ->
  GetBroadPhaseLayerName b m bl2 p2 = (p2', Returned name) ->
  name <> "INVALID"%string ->
  bl1 = bl2.
Proof.
  intros G1 G2 Hn.
  apply name_returned in G1. apply name_returned in G2.
  destruct bl1 as [v1], bl2 as [v2]. cbn [mValue] in G1, G2.
  destruct G1 as [[V1 N1] | [[V1 N1] | N1]];
    destruct G2 as [[V2 N2] | [[V2 N2] | N2]];
    try (exfalso; now apply Hn);
    subst; try reflexivity; discriminate.
Qed.

Lemma layer_name_identifies_layer_witness :
  mkBroadPhaseLayer 1 = BroadPhaseLayers.MOVING.
Proof.
  apply (layer_name_identifies_layer release_build the_mapper
           (mkBroadPhaseLayer 1) BroadPhaseLayers.MOVING boot boot boot boot
           "MOVING"%string);
    [reflexivity | reflexivity | discriminate].
Defined.

(** ** The trace callback *)

Lemma substring_length (m : nat) :
  forall s : string,
    String.length (String.substring 0 m s) = Nat.min (String.length s) m.
Proof.
  induction m as [| m IH]; intros s.
  - destruct s; reflexivity.
  - destruct s as [| c s]; [reflexivity |].
    cbn [String.substring String.length Nat.min]. rewrite IH. reflexivity.
Qed.

Lemma substring_prefix (m : nat) :
  forall s : string, String.prefix (String.substring 0 m s) s = true.
Proof.
  induction m as [| m IH]; intros s.
  - destruct s; reflexivity.
  - destruct s as [| c s]; [reflexivity |].
    cbn [String.substring String.prefix].
    destruct (Ascii.ascii_dec c c) as [_ | N]; [apply IH | now elim N].
Qed.

Lemma substring_whole (m : nat) :
  forall s : string,
    (String.length s <= m)%nat -> String.substring 0 m s = s.
Proof.
  induction m as [| m IH]; intros s H.
  - destruct s; [reflexivity | cbn in H; lia].
  - destruct s as [| c s]; [reflexivity |].
    cbn [String.substring]. cbn [String.length] in H.
    rewrite IH by lia. reflexivity.
Qed.

(** [TraceImpl] prints exactly one line after what was printed before.
    The line is the beginning of the formatted message, cut to the 1023
    characters the buffer holds; a message that fits is printed whole. *)
Theorem TraceImpl_prints_one_cut_line (message : string) (out : tty) :
  exists line : string,
    TraceImpl message out = out ++ [line] /\
    String.prefix line message = true /\
    String.length line = Nat.min (String.length message) 1023 /\
    ((String.length message <= 1023)%nat -> line = message).
Proof.
  exists (String.substring 0 1023 message).
  split; [reflexivity |].
  split; [apply substring_prefix |].
  split; [apply substring_length | apply substring_whole].
Qed.

(** ** Construction beyond the claims *)

(** Whenever construction returns, the trace hook is [TraceImpl]; the
    assertion hook is [AssertFailedImpl] in a build with assertions and is
    the hook that was there before in a build without; and nothing was
    printed. *)
Theorem construction_installs_hooks (b : Build) (hw : uint)
  (p p' : Process) (this : JoltInterface) :
  JoltInterface_ctor b hw p = (p', Returned this) ->
  Trace p' = TraceImpl /\
  AssertFailed p'
    = (if JPH_ENABLE_ASSERTS b then AssertFailedImpl else AssertFailed p) /\
  cout p' = cout p.
Proof.
  intros H. destruct (JoltInterface_ctor_returned b hw p p' this H) as [-> _].
  repeat split.
Qed.

Lemma construction_installs_hooks_witness :
  Trace (with_driver release_build 4) = TraceImpl /\
  AssertFailed (with_driver release_build 4) = AssertFailed boot /\
  cout (with_driver release_build 4) = cout boot.
Proof.
  apply (construction_installs_hooks release_build 4 boot
           (with_driver release_build 4) (constructed_driver release_build 3)).
  reflexivity.
Defined.

Lemma fresh_ptr_not_live (p : Process) :
  is_live (fresh_ptr (live_factories p)) p = false.
Proof.
  destruct (is_live (fresh_ptr (live_factories p)) p) eqn:E; [| reflexivity].
  apply is_live_In in E. apply fresh_ptr_above in E. lia.
Qed.

(** Whenever construction returns, the singleton pointer is a factory that
    was not allocated before, is allocated now, and holds the registered
    types. *)
Theorem construction_makes_singleton (b : Build) (hw : uint)
  (p p' : Process) (this : JoltInterface) :
  JoltInterface_ctor b hw p = (p', Returned this) ->
  exists f : FactoryPtr,
    Factory_sInstance p' = Some f /\
    is_live f p = false /\
    is_live f p' = true /\
    In f (registered p').
Proof.
  intros H. destruct (JoltInterface_ctor_returned b hw p p' this H) as [-> _].
  exists (fresh_ptr (live_factories p)).
  split; [reflexivity |].
  split; [apply fresh_ptr_not_live |].
  split.
  - apply is_live_In. left. reflexivity.
  - left. reflexivity.
Qed.

Lemma construction_makes_singleton_witness :
  exists f : FactoryPtr,
    Factory_sInstance (with_driver debug_build 4) = Some f /\
    is_live f boot = false /\
    is_live f (with_driver debug_build 4) = true /\
    In f (registered (with_driver debug_build 4)).
Proof.
  apply (construction_makes_singleton debug_build 4 boot
           (with_driver debug_build 4) (constructed_driver debug_build 3)).
  reflexivity.
Defined.

(** ** Destruction beyond the claims *)

Lemma JoltInterface_dtor_null (this : JoltInterface) (p : Process) :
  Factory_sInstance p = None ->
  exists p' : Process,
    JoltInterface_dtor this p = (p', Returned tt) /\
    Factory_sInstance p' = None /\
    live_factories p' = live_factories p /\
    cout p' = cout p /\
    lifetimes p' = lifetimes p ++ members_unbuilt.
Proof.
  intros Hs.
  cbv beta iota delta [JoltInterface_dtor bind get_sInstance modify ret].
  rewrite Hs. cbv beta iota delta [delete_Factory ret].
  unfold PhysicsSystem_dtor, BPLayerInterfaceImpl_dtor,
    JobSystemThreadPool_dtor, TempAllocatorImpl_dtor, modify,
    with_sInstance, log_event.
  cbn -[app]. eexists. split; [reflexivity |].
  cbn -[app]. repeat split. unfold members_unbuilt.
  repeat rewrite <- app_assoc. reflexivity.
Qed.

Lemma filter_absent (f : FactoryPtr) (l : list FactoryPtr) :
  ~ In f l -> filter (fun g => negb (Nat.eqb f g)) l = l.
Proof.
  induction l as [| g tl IH]; intros H; [reflexivity |].
  cbn [filter]. destruct (Nat.eqb f g) eqn:E.
  - apply Nat.eqb_eq in E. subst g. elim H. left. reflexivity.
  - cbn [negb]. rewrite IH; [reflexivity |].
    intros Hin. apply H. right. exact Hin.
Qed.

Lemma fresh_ptr_absent (l : list FactoryPtr) : ~ In (fresh_ptr l) l.
Proof.
  intros Hin. apply fresh_ptr_above in Hin. lia.
Qed.

Lemma construct_then_destroy_runs (b : Build) (hw : uint) (p : Process) :
  hw < 2 ^ 31 ->
  construct_then_destroy b hw p
  = (destroyed_process (fresh_ptr (live_factories p)) (constructed_process b p),
     Returned tt).
Proof.
  intros H. unfold construct_then_destroy, bind.
  rewrite (JoltInterface_ctor_runs b hw p H).
  apply JoltInterface_dtor_runs; [reflexivity |].
  apply is_live_In. left. reflexivity.
Qed.

Lemma live_after_lifetime (b : Build) (p : Process) :
  live_factories (destroyed_process (fresh_ptr (live_factories p))
                    (constructed_process b p))
  = live_factories p.
Proof.
  cbn [destroyed_process constructed_process live_factories filter].
  rewrite Nat.eqb_refl. cbn [negb].
  apply filter_absent, fresh_ptr_absent.
Qed.

(** The lifetime of a driver frees the factory it allocated and no other:
    after a driver is constructed and destroyed, the allocated factories
    are those of before, the singleton pointer is null, nothing was
    printed, and the log has grown by the constructions and then the
    destructions. *)
Theorem driver_lifetime_frees_factory (b : Build) (hw : uint) (p : Process) :
  hw < 2 ^ 31 ->
  exists p' : Process,
    construct_then_destroy b hw p = (p', Returned tt) /\
    live_factories p' = live_factories p /\
    Factory_sInstance p' = None /\
    cout p' = cout p /\
    lifetimes p' = lifetimes p ++ built ++ unbuilt.
Proof.
  intros H.
  exists (destroyed_process (fresh_ptr (live_factories p))
            (constructed_process b p)).
  split; [now apply construct_then_destroy_runs |].
  split; [apply live_after_lifetime |].
  split; [reflexivity |]. split; [reflexivity |].
  cbn [destroyed_process constructed_process lifetimes].
  rewrite <- app_assoc. reflexivity.
Qed.

Lemma driver_lifetime_frees_factory_witness :
  exists p' : Process,
    construct_then_destroy debug_build 4 boot = (p', Returned tt) /\
    live_factories p' = live_factories boot /\
    Factory_sInstance p' = None /\
    cout p' = cout boot /\
    lifetimes p' = lifetimes boot ++ built ++ unbuilt.
Proof.
  apply (driver_lifetime_frees_factory debug_build 4 boot). reflexivity.
Defined.

(** Two drivers at once lose a factory.  When a second driver is
    constructed and destroyed while a first one is live, the singleton
    pointer ends up null although the factory of the first driver is still
    allocated; destroying the first driver then returns normally, destroys
    its four members and no factory, so that factory stays allocated. *)
Theorem nested_driver_leaks_factory (b : Build) (hw : uint) (p : Process)
  (g : FactoryPtr) (first : JoltInterface) :
  hw < 2 ^ 31 ->
  Factory_sInstance p = Some g ->
  is_live g p = true ->
  exists p1 p2 : Process,
    construct_then_destroy b hw p = (p1, Returned tt) /\
    Factory_sInstance p1 = None /\
    is_live g p1 = true /\
    JoltInterface_dtor first p1 = (p2, Returned tt) /\
    lifetimes p2 = lifetimes p1 ++ members_unbuilt /\
    live_factories p2 = live_factories p /\
    is_live g p2 = true.
Proof.
  intros H Hs Hl.
  pose proof (construct_then_destroy_runs b hw p H) as Hrun.
  pose proof (live_after_lifetime b p) as Hlive.
  set (p1 := destroyed_process (fresh_ptr (live_factories p))
               (constructed_process b p)) in Hrun, Hlive.
  assert (Hnull : Factory_sInstance p1 = None) by reflexivity.
  destruct (JoltInterface_dtor_null first p1 Hnull)
    as (p2 & Hd & _ & Hlive2 & _ & Hlog).
  exists p1, p2.
  assert (Hg1 : is_live g p1 = true) by (unfold is_live; now rewrite Hlive).
  repeat split; try assumption.
  - now rewrite Hlive2.
  - unfold is_live. now rewrite Hlive2, Hlive.
Qed.

Lemma nested_driver_leaks_factory_witness :
  exists p1 p2 : Process,
    construct_then_destroy debug_build 4 (with_driver debug_build 4)
      = (p1, Returned tt) /\
    Factory_sInstance p1 = None /\
    is_live 1%nat p1 = true /\
    JoltInterface_dtor (constructed_driver debug_build 3) p1
      = (p2, Returned tt) /\
    lifetimes p2 = lifetimes p1 ++ members_unbuilt /\
    live_factories p2 = live_factories (with_driver debug_build 4) /\
    is_live 1%nat p2 = true.
Proof.
  apply (nested_driver_leaks_factory debug_build 4 (with_driver debug_build 4)
           1%nat (constructed_driver debug_build 3)); reflexivity.
Defined.

(** ** The singleton in every state the header can bring about *)

Lemma keeps_factories_bind {A B : Type} (c : Proc A) (k : A -> Proc B) :
  keeps_factories c ->
  (forall a : A, keeps_factories (k a)) ->
  keeps_factories (bind c k).
Proof.
  intros Hc Hk p. unfold bind. specialize (Hc p).
  destruct (c p) as [q [a | |]]; cbn [fst] in Hc |- *.
  - destruct (Hk a q) as [H1 H2]. rewrite H1, H2. exact Hc.
  - exact Hc.
  - exact Hc.
Qed.

Lemma keeps_factories_ret {A : Type} (a : A) : keeps_factories (ret a).
Proof. intros p. split; reflexivity. Qed.

Lemma keeps_factories_undefined {A : Type} : keeps_factories (@undefined A).
Proof. intros p. split; reflexivity. Qed.

Lemma keeps_factories_assert (b : Build) (c : bool) (e : string) (l : uint) :
  keeps_factories (JPH_ASSERT b c e l).
Proof.
  intros p. unfold JPH_ASSERT.
  destruct (JPH_ENABLE_ASSERTS b); [| split; reflexivity].
  destruct c; [split; reflexivity |].
  destruct (AssertFailed p _ _ _ _ _) as [out brk]. split; reflexivity.
Qed.

Lemma keeps_factories_object_filter (b : Build) (o1 o2 : ObjectLayer) :
  keeps_factories (MyObjectCanCollide b o1 o2).
Proof.
  unfold MyObjectCanCollide.
  destruct (promote o1 =? _)%Z; [apply keeps_factories_ret |].
  destruct (promote o1 =? _)%Z; [apply keeps_factories_ret |].
  apply keeps_factories_bind;
    [apply keeps_factories_assert | intros; apply keeps_factories_ret].
Qed.

Lemma keeps_factories_broadphase_filter (b : Build) (o : ObjectLayer)
  (bl : BroadPhaseLayer) :
  keeps_factories (MyBroadPhaseCanCollide b o bl).
Proof.
  unfold MyBroadPhaseCanCollide.
  destruct (promote o =? _)%Z; [apply keeps_factories_ret |].
  destruct (promote o =? _)%Z; [apply keeps_factories_ret |].
  apply keeps_factories_bind;
    [apply keeps_factories_assert | intros; apply keeps_factories_ret].
Qed.

Lemma keeps_factories_mapper (b : Build) (m : BPLayerInterfaceImpl)
  (o : ObjectLayer) :
  keeps_factories (GetBroadPhaseLayer b m o).
Proof.
  unfold GetBroadPhaseLayer.
  apply keeps_factories_bind; [apply keeps_factories_assert |].
  intros _. destruct (nth_error _ _) as [[l |] |];
    [apply keeps_factories_ret | apply keeps_factories_undefined ..].
Qed.

Lemma keeps_factories_Allocate (n : uint) (a : TempAllocatorImpl) :
  keeps_factories (TempAllocator_Allocate n a).
Proof.
  unfold TempAllocator_Allocate.
  destruct (_ <=? _); [apply keeps_factories_ret |].
  intros p. split; reflexivity.
Qed.

Lemma keeps_factories_Free (n : uint) (a : TempAllocatorImpl) :
  keeps_factories (TempAllocator_Free n a).
Proof.
  unfold TempAllocator_Free.
  destruct (_ <=? _); [apply keeps_factories_ret | apply keeps_factories_undefined].
Qed.

Lemma keeps_factories_substeps (w : PhysicsSystem) (n : nat) :
  forall a : TempAllocatorImpl, keeps_factories (integration_substeps w n a).
Proof.
  induction n as [| n IH]; intros a; cbn [integration_substeps].
  - apply keeps_factories_ret.
  - apply keeps_factories_bind; [apply keeps_factories_Allocate |].
    intros a1. apply keeps_factories_bind; [apply keeps_factories_Free |].
    intros a2. apply IH.
Qed.

Lemma keeps_factories_collision (w : PhysicsSystem) (subs n : nat) :
  forall a : TempAllocatorImpl, keeps_factories (collision_steps w n subs a).
Proof.
  induction n as [| n IH]; intros a; cbn [collision_steps].
  - apply keeps_factories_ret.
  - apply keeps_factories_bind; [apply keeps_factories_Allocate |].
    intros a1. apply keeps_factories_bind; [apply keeps_factories_substeps |].
    intros a2. apply keeps_factories_bind; [apply keeps_factories_Free |].
    intros a3. apply IH.
Qed.

Lemma keeps_factories_Step (this : JoltInterface) (dt : float) (cs iss : Z) :
  keeps_factories (Step this dt cs iss).
Proof.
  unfold Step, PhysicsSystem_Update.
  apply keeps_factories_bind; [| intros; apply keeps_factories_ret].
  apply keeps_factories_bind; [| intros; apply keeps_factories_ret].
  apply keeps_factories_collision.
Qed.

Lemma singleton_ok_kept (p p' : Process) :
  Factory_sInstance p' = Factory_sInstance p /\
  live_factories p' = live_factories p ->
  singleton_ok p -> singleton_ok p'.
Proof.
  intros [Hs Hl]. unfold singleton_ok, is_live. now rewrite Hs, Hl.
Qed.

Lemma singleton_ok_ctor (b : Build) (hw : uint) (p : Process) :
  singleton_ok p -> singleton_ok (fst (JoltInterface_ctor b hw p)).
Proof.
  intros Hok.
  destruct (int_sub_cases (to_int hw) 1
              (log_event (Constructed TempAllocatorC) p)) as [E | E].
  - rewrite (JoltInterface_ctor_with b hw p _ E).
    unfold singleton_ok. cbn [fst constructed_process Factory_sInstance].
    apply is_live_In. left. reflexivity.
  - cbv beta iota delta [JoltInterface_ctor bind TempAllocatorImpl_ctor modify ret].
    rewrite E. cbn [fst].
    apply (singleton_ok_kept p); [split; reflexivity | exact Hok].
Qed.

Lemma singleton_ok_dtor (this : JoltInterface) (p : Process) :
  singleton_ok p ->
  exists p' : Process,
    JoltInterface_dtor this p = (p', Returned tt) /\ Factory_sInstance p' = None.
Proof.
  unfold singleton_ok. destruct (Factory_sInstance p) as [f |] eqn:Es; intros Hok.
  - exists (destroyed_process f p). split; [| reflexivity].
    now apply JoltInterface_dtor_runs.
  - destruct (JoltInterface_dtor_null this p Es) as (p' & Hd & Hn & _).
    exists p'. split; assumption.
Qed.

Lemma reachable_singleton_ok (p : Process) : reachable p -> singleton_ok p.
Proof.
  induction 1 as [p Hs | b hw p _ IH | this p _ IH | this dt cs iss p _ IH
                 | b o1 o2 p _ IH | b o bl p _ IH | b m o p _ IH].
  - unfold singleton_ok. now rewrite Hs.
  - now apply singleton_ok_ctor.
  - destruct (singleton_ok_dtor this p IH) as (p' & Hd & Hn).
    rewrite Hd. unfold singleton_ok. cbn [fst]. now rewrite Hn.
  - exact (singleton_ok_kept p _ (keeps_factories_Step this dt cs iss p) IH).
  - exact (singleton_ok_kept p _ (keeps_factories_object_filter b o1 o2 p) IH).
  - exact (singleton_ok_kept p _ (keeps_factories_broadphase_filter b o bl p) IH).
  - exact (singleton_ok_kept p _ (keeps_factories_mapper b m o p) IH).
Qed.

(** In every process state the code of the header can bring about
    (constructions, destructions, steps, filter and mapper calls, in any
    order and with any outcome, starting without a singleton), the
    singleton pointer is null or an allocated factory.  So the destructor
    never deletes a dangling pointer: it always returns, and leaves the
    singleton pointer null. *)
Theorem destructor_defined_when_reachable (p : Process) :
  reachable p ->
  singleton_ok p /\
  forall this : JoltInterface,
    exists p' : Process,
      JoltInterface_dtor this p = (p', Returned tt) /\
      Factory_sInstance p' = None.
Proof.
  intros H. pose proof (reachable_singleton_ok p H) as Hok.
  split; [exact Hok |].
  intros this. now apply singleton_ok_dtor.
Qed.

Lemma destructor_defined_when_reachable_witness :
  singleton_ok (fst (MyObjectCanCollide debug_build 2 0
                       (with_driver debug_build 4))) /\
  forall this : JoltInterface,
    exists p' : Process,
      JoltInterface_dtor this
        (fst (MyObjectCanCollide debug_build 2 0 (with_driver debug_build 4)))
      = (p', Returned tt) /\
      Factory_sInstance p' = None.
Proof.
  apply (destructor_defined_when_reachable
           (fst (MyObjectCanCollide debug_build 2 0
                   (with_driver debug_build 4)))).
  apply reach_object_filter.
  apply (reach_ctor debug_build 4 boot).
  apply reach_start. reflexivity.
Defined.
